(** * System information discovery of ODP linux-generic (odp_system_info.c)

    A shallow embedding of [platform/linux-generic/odp_system_info.c]:
    the probes that read the kernel's pseudo-files, the orchestration in
    [odp_system_info_init], the process-wide record and its accessors.

    The C file is compiled under preprocessor conditionals; the embedding
    takes them as a [build_config] value.  Files are text held in a
    [filesystem]; an open [FILE] is the text not read yet.  Functions that
    write the global record or print a diagnostic live in a small monad
    [M] that threads [odp_global_data], collects the [ODP_ERR] messages and
    can end in [Undefined] where the C program has undefined behaviour. *)

From Stdlib Require Import ZArith List String Ascii Bool Lia.
Import ListNotations.

Local Open Scope string_scope.
Local Open Scope Z_scope.

(** ** The C library, as far as the file uses it *)

Module Libc.

(** Longest path of <limits.h> on Linux. *)
Definition PATH_MAX : nat := 4096.

(** A file system maps the paths that can be opened to their text. *)
Definition filesystem := list (string * string).

(** An open stream: the text that has not been read yet. *)
Definition FILE := string.

(** [fopen path "r"]: [None] is the NULL stream. *)
Fixpoint fopen (fs : filesystem) (path : string) : option FILE :=
  match fs with
  | [] => None
  | (p, text) :: fs' => if String.eqb p path then Some text else fopen fs' path
  end.

Definition newline : ascii := "010"%char.
Definition NUL : ascii := "000"%char.

(** Read at most [n] characters, stopping after a newline. *)
Fixpoint read_chunk (n : nat) (f : FILE) : string * FILE :=
  match n, f with
  | O, _ => ("", f)
  | S _, EmptyString => ("", "")
  | S n', String c f' =>
      if Ascii.eqb c newline then (String c "", f')
      else let (l, r) := read_chunk n' f' in (String c l, r)
  end.

(** [fgets(buf, size, f)]: [None] at end of file, otherwise the bytes stored
    in [buf] (at most [size - 1], through the first newline) and the rest of
    the stream. *)
Definition fgets (size : nat) (f : FILE) : option (string * FILE) :=
  match f with
  | EmptyString => None
  | _ => Some (read_chunk (size - 1) f)
  end.

(** The successive results of [fgets(buf, size, f)] until it returns NULL.
    Every call on a non-empty stream consumes a character when [size >= 2],
    so the length of the stream bounds the number of calls. *)
Fixpoint fgets_loop (fuel : nat) (size : nat) (f : FILE) : list string :=
  match fuel with
  | O => []
  | S k =>
      match fgets size f with
      | None => []
      | Some (line, f') => line :: fgets_loop k size f'
      end
  end.

Definition fgets_all (size : nat) (f : FILE) : list string :=
  fgets_loop (String.length f) size f.

(** A buffer read as a C string ends at its first NUL byte. *)
Fixpoint c_str (buf : string) : string :=
  match buf with
  | EmptyString => ""
  | String c s => if Ascii.eqb c NUL then "" else String c (c_str s)
  end.

(** *** strtok *)

Fixpoint skip_delim (d : ascii) (s : string) : string :=
  match s with
  | String c s' => if Ascii.eqb c d then skip_delim d s' else s
  | EmptyString => ""
  end.

(** The token at the head of [s] and what follows its terminating
    delimiter. *)
Fixpoint span_token (d : ascii) (s : string) : string * string :=
  match s with
  | EmptyString => ("", "")
  | String c s' =>
      if Ascii.eqb c d then ("", s')
      else let (t, r) := span_token d s' in (String c t, r)
  end.

(** One call of [strtok] with the one-character delimiter set [d] on the
    saved position [s]: [None] is NULL, otherwise the token and the new
    saved position. *)
Definition strtok (d : ascii) (s : string) : option (string * string) :=
  match skip_delim d s with
  | EmptyString => None
  | s' => Some (span_token d s')
  end.

(** [strncpy(dst, src, n); dst[n-1] = 0] leaves the first [n - 1] characters
    of [src] in [dst]. *)
Fixpoint take (n : nat) (s : string) : string :=
  match n, s with
  | S n', String c s' => String c (take n' s')
  | _, _ => ""
  end.

Definition strncpy_terminated (n : nat) (src : string) : string :=
  take (n - 1) src.

(** *** sscanf *)

Definition isspace (c : ascii) : bool :=
  let n := nat_of_ascii c in
  Nat.eqb n 32 || (Nat.leb 9 n && Nat.leb n 13).

Fixpoint skip_space (s : string) : string :=
  match s with
  | String c s' => if isspace c then skip_space s' else s
  | EmptyString => ""
  end.

Definition digit_val (base : Z) (c : ascii) : option Z :=
  let n := Z.of_nat (nat_of_ascii c) in
  let v :=
    if (48 <=? n) && (n <=? 57) then Some (n - 48)
    else if (97 <=? n) && (n <=? 102) then Some (n - 87)
    else if (65 <=? n) && (n <=? 70) then Some (n - 55)
    else None in
  match v with
  | Some d => if d <? base then Some d else None
  | None => None
  end.

(** Digits of [base] at the head of [s], at most [width] of them: how many
    were read and the number they denote after [acc]. *)
Fixpoint scan_digits (base : Z) (width : nat) (s : string) (acc : Z)
  : nat * Z :=
  match width, s with
  | S w, String c s' =>
      match digit_val base c with
      | Some d =>
          let (k, v) := scan_digits base w s' (acc * base + d) in (S k, v)
      | None => (O, acc)
      end
  | _, _ => (O, acc)
  end.

Definition sign_of (c : ascii) : option bool :=
  if Ascii.eqb c "-"%char then Some true
  else if Ascii.eqb c "+"%char then Some false
  else None.

Definition LONG_MAX : Z := 2 ^ 63 - 1.
Definition LONG_MIN : Z := - 2 ^ 63.
Definition ULONG_MOD : Z := 2 ^ 64.

(** Conversion of a [long] to [int]: reduction modulo 2^32 into the signed
    range. *)
Definition int_of_long (v : Z) : Z :=
  (v + 2 ^ 31) mod 2 ^ 32 - 2 ^ 31.

(** [strtol] saturates at the ends of [long]. *)
Definition clamp_long (v : Z) : Z :=
  Z.max LONG_MIN (Z.min LONG_MAX v).

(** [sscanf(str, "%i", &size)]: [Some v] when the call returns 1 and stores
    [v].  White space is skipped, a sign is optional, a leading [0x] selects
    base 16 and a leading [0] base 8. *)
Definition sscanf_i (str : string) : option Z :=
  let s := skip_space str in
  let (neg, s1) :=
    match s with
    | String c s' =>
        match sign_of c with Some b => (b, s') | None => (false, s) end
    | EmptyString => (false, s)
    end in
  let result (v : Z) :=
    Some (int_of_long (clamp_long (if neg : bool then - v else v))) in
  match s1 with
  | String "0" (String x s2) =>
      if Ascii.eqb x "x"%char || Ascii.eqb x "X"%char
      then result (snd (scan_digits 16 (String.length s2) s2 0))
      else result (snd (scan_digits 8 (String.length s1) s1 0))
  | String "0" EmptyString => result 0
  | _ =>
      match scan_digits 10 (String.length s1) s1 0 with
      | (O, _) => None
      | (_, v) => result v
      end
  end.

(** The literal part of a format: every character must be next in the
    input. *)
Fixpoint match_literal (lit s : string) : option string :=
  match lit, s with
  | EmptyString, _ => Some s
  | String a lit', String c s' =>
      if Ascii.eqb a c then match_literal lit' s' else None
  | String _ _, EmptyString => None
  end.

(** [sscanf(str, "Hugepagesize:   %8lu kB", &sz)]: [Some sz] when the call
    returns 1.  The directive [%8lu] reads a sign and decimal digits, eight
    characters at most; what follows the number does not change the count
    of converted items. *)
Definition sscanf_hugepagesize (str : string) : option Z :=
  match match_literal "Hugepagesize:" str with
  | None => None
  | Some rest =>
      let s := skip_space rest in
      let '(neg, s1, width) :=
        match s with
        | String c s' =>
            match sign_of c with
            | Some b => (b, s', 7%nat)
            | None => (false, s, 8%nat)
            end
        | EmptyString => (false, s, 8%nat)
        end in
      match scan_digits 10 width s1 0 with
      | (O, _) => None
      | (_, v) => Some ((if neg : bool then - v else v) mod ULONG_MOD)
      end
  end.

End Libc.

(** ** Build configuration and host *)

(** The preprocessor symbols the file is compiled under.  The constants come
    from headers of the library ([ODP_CACHE_LINE_SIZE] and [ODP_PAGE_SIZE]
    from the alignment header, [MAX_CPU_NUMBER] from the internal one).
    [HAVE_THUNDERX] is defined to 1 when it is defined, so that [#ifdef] and
    [#if] agree on it. *)
Record build_config := {
  (** [defined __x86_64__ || defined __i386__ || defined __OCTEON__ ||
      defined __powerpc__]: the cache line size is read from sysfs. *)
  SYSFS_CACHE_ARCH : bool;
  HAVE_THUNDERX : bool;
  ODP_CACHE_LINE_SIZE : Z;
  ODP_PAGE_SIZE : Z;
  MAX_CPU_NUMBER : Z;
}.

(** What the operating system shows to the process. *)
Record host := {
  files : Libc.filesystem;
  (** the value of [sysconf(_SC_PAGESIZE)] *)
  sc_pagesize : Z;
}.

(** ** The process-wide record *)

(** [system_info_t].  [model_str] is an array of character arrays, so every
    entry is a string (empty after [memset]). *)
Module SI.
Record system_info_t := mk {
  cpu_hz_max : list Z;
  default_huge_page_size : Z;
  page_size : Z;
  cache_line_size : Z;
  cpu_count : Z;
  model_str : list string;
  huge_page_dir : string;
}.
End SI.
Definition system_info_t : Type := SI.system_info_t.

(** The part of [odp_global_data] the file uses. *)
Record odp_global_data_s := {
  num_cpus_installed : Z;
  system_info : system_info_t;
}.

Definition with_system_info (g : odp_global_data_s) (si : system_info_t)
  : odp_global_data_s :=
  {| num_cpus_installed := num_cpus_installed g; system_info := si |}.

(** ** Diagnostics and the monad of the file *)

(** One constructor per [ODP_ERR] call of the file. *)
Inductive odp_err : Type :=
| err_fopen_mounts
| err_parsing_mounts
| err_hp_size
| err_cpu_count
| err_cache_line_size
| err_cache_line_mismatch
| err_sc_pagesize
| err_hugepage_dir
| err_open_cpuinfo
| err_systemcpu.

(** The format string of each diagnostic. *)
Definition format (e : odp_err) : string :=
  match e with
  | err_fopen_mounts => "fopen(%s):%s\n"
  | err_parsing_mounts => "Error parsing %s: %s\n"
  | err_hp_size => "unable to get default hp size\n"
  | err_cpu_count => "sysconf_cpu_count failed.\n"
  | err_cache_line_size => "systemcpu_cache_line_size failed.\n"
  | err_cache_line_mismatch => "Cache line sizes definitions don't match.\n"
  | err_sc_pagesize => "sysconf(_SC_PAGESIZE): %s"
  | err_hugepage_dir =>
      "Cannot get hugepage dir from mountpoints. Please, mount hugetlbfs first.\n"
  | err_open_cpuinfo => "Failed to open /proc/cpuinfo\n"
  | err_systemcpu => "systemcpu failed\n"
  end.

(** A C computation either returns or has undefined behaviour (a NULL
    stream given to [fgets], an array read outside its bounds). *)
Inductive outcome (A : Type) : Type :=
| Returns (a : A)
| Undefined.
Arguments Returns {A} a.
Arguments Undefined {A}.

(** Computations over [odp_global_data] that print diagnostics. *)
Definition M (A : Type) : Type :=
  odp_global_data_s -> outcome (A * odp_global_data_s * list odp_err).

Definition ret {A} (a : A) : M A := fun g => Returns (a, g, []).

Definition bind {A B} (m : M A) (k : A -> M B) : M B :=
  fun g =>
    match m g with
    | Undefined => Undefined
    | Returns (a, g1, l1) =>
        match k a g1 with
        | Undefined => Undefined
        | Returns (b, g2, l2) => Returns (b, g2, (l1 ++ l2)%list)
        end
    end.

Notation "x <- m ;; k" := (bind m (fun x => k))
  (at level 61, m at next level, right associativity).
Notation "m ;; k" := (bind m (fun _ => k))
  (at level 61, right associativity).

Definition ODP_ERR (e : odp_err) : M unit := fun g => Returns (tt, g, [e]).

Definition undefined {A} : M A := fun _ => Undefined.

Definition read_global {A} (f : odp_global_data_s -> A) : M A :=
  fun g => Returns (f g, g, []).

(** A store through the [sysinfo] pointer, which is always
    [&odp_global_data.system_info]. *)
Definition store (f : system_info_t -> system_info_t) : M unit :=
  fun g => Returns (tt, with_system_info g (f (system_info g)), []).

Definition set_cpu_count (v : Z) (s : system_info_t) : system_info_t :=
  SI.mk (SI.cpu_hz_max s) (SI.default_huge_page_size s) (SI.page_size s)
        (SI.cache_line_size s) v (SI.model_str s) (SI.huge_page_dir s).

Definition set_cache_line_size (v : Z) (s : system_info_t) : system_info_t :=
  SI.mk (SI.cpu_hz_max s) (SI.default_huge_page_size s) (SI.page_size s)
        v (SI.cpu_count s) (SI.model_str s) (SI.huge_page_dir s).

Definition set_default_huge_page_size (v : Z) (s : system_info_t)
  : system_info_t :=
  SI.mk (SI.cpu_hz_max s) v (SI.page_size s)
        (SI.cache_line_size s) (SI.cpu_count s) (SI.model_str s)
        (SI.huge_page_dir s).

Definition set_page_size (v : Z) (s : system_info_t) : system_info_t :=
  SI.mk (SI.cpu_hz_max s) (SI.default_huge_page_size s) v
        (SI.cache_line_size s) (SI.cpu_count s) (SI.model_str s)
        (SI.huge_page_dir s).

Definition set_huge_page_dir (v : string) (s : system_info_t)
  : system_info_t :=
  SI.mk (SI.cpu_hz_max s) (SI.default_huge_page_size s) (SI.page_size s)
        (SI.cache_line_size s) (SI.cpu_count s) (SI.model_str s) v.

(** Reading [a[i]]: outside the array the behaviour is undefined. *)
Definition array_read {A} (a : list A) (i : Z) : outcome A :=
  if i <? 0 then Undefined
  else match nth_error a (Z.to_nat i) with
       | Some x => Returns x
       | None => Undefined
       end.

Definition CACHE_LNSZ_FILE : string :=
  "/sys/devices/system/cpu/cpu0/cache/index0/coherency_line_size".

Definition UINT64_MOD : Z := 2 ^ 64.

(** ** The functions of odp_system_info.c *)

Section SystemInfo.

Variable cfg : build_config.

(** The per-architecture parser of /proc/cpuinfo, an external collaborator:
    it receives the open stream and the record it fills in. *)
Variable cpuinfo_parser : Libc.FILE -> system_info_t -> system_info_t.

Variable h : host.

(** Report the number of logical CPUs detected at boot time. *)
Definition sysconf_cpu_count : M Z := read_global num_cpus_installed.

(** The sysfs variant opens [CACHE_LNSZ_FILE] and scans its first line with
    ["%i"]; the other variant returns dummy data. *)
Definition systemcpu_cache_line_size : Z :=
  if SYSFS_CACHE_ARCH cfg then
    match Libc.fopen (files h) CACHE_LNSZ_FILE with
    | None => 0
    | Some file =>
        match Libc.fgets 128 file with
        | Some (str, _) =>
            match Libc.sscanf_i (Libc.c_str str) with
            | Some size => size
            | None => 0
            end
        | None => 0
        end
    end
  else if HAVE_THUNDERX cfg then ODP_CACHE_LINE_SIZE cfg
  else 64.

Definition hugefs : string := "hugetlbfs".
Definition ncols : nat := 3.

(** The [for] loop of [huge_page_dir]: the tokens [strtok] finds in the
    line, [ncols] at most, in [cols[0..i-1]]. *)
Fixpoint split_cols (n : nat) (saved : string) : list string :=
  match n with
  | O => []
  | S k =>
      match Libc.strtok " " saved with
      | None => []
      | Some (token, saved') => token :: split_cols k saved'
      end
  end.

Definition cols_of (line : string) : list string :=
  split_cols ncols (Libc.c_str line).

(** The [while (fgets(line, sizeof(line), f))] loop of [huge_page_dir] over
    the lines [fgets] delivers. *)
Fixpoint huge_page_dir_scan (lines : list string) : M Z :=
  match lines with
  | [] => ret (-1)
  | line :: rest =>
      match cols_of line with
      | [_; mountpoint; fstype] =>
          if String.eqb fstype hugefs then
            store (set_huge_page_dir
                     (Libc.strncpy_terminated Libc.PATH_MAX mountpoint)) ;;
            ret 0
          else huge_page_dir_scan rest
      | _ => ODP_ERR err_parsing_mounts ;; ret (-1)
      end
  end.

Definition huge_page_dir : M Z :=
  match Libc.fopen (files h) "/proc/mounts" with
  | None => ODP_ERR err_fopen_mounts ;; ret (-1)
  | Some f => huge_page_dir_scan (Libc.fgets_all Libc.PATH_MAX f)
  end.

(** The [while (fgets(str, sizeof(str), file) != NULL)] loop of
    [default_huge_page_size]. *)
Fixpoint default_huge_page_size_scan (lines : list string) : M Z :=
  match lines with
  | [] => ODP_ERR err_hp_size ;; ret 0
  | str :: rest =>
      match Libc.sscanf_hugepagesize (Libc.c_str str) with
      | Some sz => ret ((sz * 1024) mod UINT64_MOD)
      | None => default_huge_page_size_scan rest
      end
  end.

(** The result of [fopen] is given to [fgets] without a test. *)
Definition default_huge_page_size : M Z :=
  match Libc.fopen (files h) "/proc/meminfo" with
  | None => undefined
  | Some file => default_huge_page_size_scan (Libc.fgets_all 1024 file)
  end.

Definition systemcpu : M Z :=
  r <- sysconf_cpu_count ;;
  if r =? 0 then ODP_ERR err_cpu_count ;; ret (-1)
  else
    store (set_cpu_count r) ;;
    let r := systemcpu_cache_line_size in
    if r =? 0 then ODP_ERR err_cache_line_size ;; ret (-1)
    else
      store (set_cache_line_size r) ;;
      if negb (r =? ODP_CACHE_LINE_SIZE cfg) then
        ODP_ERR err_cache_line_mismatch ;; ret (-1)
      else
        sz <- default_huge_page_size ;;
        store (set_default_huge_page_size sz) ;;
        ret 0.

(** [memset(&odp_global_data.system_info, 0, sizeof(system_info_t))]. *)
Definition zeroed : system_info_t :=
  SI.mk (repeat 0 (Z.to_nat (MAX_CPU_NUMBER cfg))) 0 0 0 0
        (repeat "" (Z.to_nat (MAX_CPU_NUMBER cfg))) "".

(** [odp_system_info_init] from [fopen("/proc/cpuinfo", "rt")] on, common to
    both branches of [#if HAVE_THUNDERX]. *)
Definition init_cpuinfo : M Z :=
  match Libc.fopen (files h) "/proc/cpuinfo" with
  | None => ODP_ERR err_open_cpuinfo ;; ret (-1)
  | Some file =>
      store (cpuinfo_parser file) ;;
      r <- systemcpu ;;
      if negb (r =? 0) then ODP_ERR err_systemcpu ;; ret (-1)
      else ret 0
  end.

(** System info initialisation. *)
Definition odp_system_info_init : M Z :=
  store (fun _ => zeroed) ;;
  if HAVE_THUNDERX cfg then
    let sc_pagesz := sc_pagesize h in
    if sc_pagesz <? 0 then ODP_ERR err_sc_pagesize ;; ret (-1)
    else
      store (set_page_size sc_pagesz) ;;
      r <- huge_page_dir ;;
      if negb (r =? 0) then ODP_ERR err_hugepage_dir ;; ret (-1)
      else init_cpuinfo
  else
    store (set_page_size (ODP_PAGE_SIZE cfg)) ;;
    init_cpuinfo.

(** System info termination. *)
Definition odp_system_info_term : M Z := ret 0.

(** *** Public access functions *)

Definition odp_cpu_hz_max_id (g : odp_global_data_s) (id : Z) : outcome Z :=
  if (0 <=? id) && (id <? MAX_CPU_NUMBER cfg)
  then array_read (SI.cpu_hz_max (system_info g)) id
  else Returns 0.

Definition odp_cpu_hz_max (g : odp_global_data_s) : outcome Z :=
  odp_cpu_hz_max_id g 0.

Definition odp_sys_huge_page_size (g : odp_global_data_s) : Z :=
  SI.default_huge_page_size (system_info g).

Definition odp_sys_huge_page_dir (g : odp_global_data_s) : string :=
  SI.huge_page_dir (system_info g).

Definition odp_sys_page_size (g : odp_global_data_s) : Z :=
  SI.page_size (system_info g).

(** The result is a pointer: [None] is NULL, [Some s] points to the string
    [s] of the table. *)
Definition odp_cpu_model_str_id (g : odp_global_data_s) (id : Z)
  : outcome (option string) :=
  if (0 <=? id) && (id <? MAX_CPU_NUMBER cfg)
  then match array_read (SI.model_str (system_info g)) id with
       | Returns s => Returns (Some s)
       | Undefined => Undefined
       end
  else Returns None.

Definition odp_cpu_model_str (g : odp_global_data_s) : outcome (option string) :=
  odp_cpu_model_str_id g 0.

Definition odp_sys_cache_line_size (g : odp_global_data_s) : Z :=
  SI.cache_line_size (system_info g).

Definition odp_cpu_count (g : odp_global_data_s) : Z :=
  SI.cpu_count (system_info g).

End SystemInfo.

(** ** Concrete builds and hosts used to run the model *)

Definition nl : string := String Libc.newline "".

Definition x86_build : build_config :=
  {| SYSFS_CACHE_ARCH := true; HAVE_THUNDERX := false;
     ODP_CACHE_LINE_SIZE := 64; ODP_PAGE_SIZE := 4096;
     MAX_CPU_NUMBER := 128 |}.

Definition thunderx_build : build_config :=
  {| SYSFS_CACHE_ARCH := false; HAVE_THUNDERX := true;
     ODP_CACHE_LINE_SIZE := 128; ODP_PAGE_SIZE := 4096;
     MAX_CPU_NUMBER := 128 |}.

Definition no_parser : Libc.FILE -> system_info_t -> system_info_t :=
  fun _ s => s.

(** A parser that fills the entries of CPU 0. *)
Definition cpu0_parser : Libc.FILE -> system_info_t -> system_info_t :=
  fun _ s =>
    SI.mk (match SI.cpu_hz_max s with [] => [] | _ :: t => 2000000000 :: t end)
          (SI.default_huge_page_size s) (SI.page_size s)
          (SI.cache_line_size s) (SI.cpu_count s)
          (match SI.model_str s with [] => [] | _ :: t => "ThunderX" :: t end)
          (SI.huge_page_dir s).

(** [odp_global_data] as process bootstrap leaves it, with [n] CPUs
    installed. *)
Definition boot (n : Z) : odp_global_data_s :=
  {| num_cpus_installed := n;
     system_info := SI.mk [] 0 0 0 0 [] "" |}.

Definition meminfo_2M : string :=
  "MemTotal:       16315212 kB" ++ nl ++
  "Hugepagesize:       2048 kB" ++ nl.

Definition meminfo_without_hugepagesize : string :=
  "MemTotal:       16315212 kB" ++ nl ++
  "HugePages_Total:       0" ++ nl.

(** A host of the sysfs kind whose coherency_line_size file holds [lnsz]. *)
Definition x86_host (lnsz meminfo : string) : host :=
  {| files := [ (CACHE_LNSZ_FILE, lnsz); ("/proc/cpuinfo", "");
                ("/proc/meminfo", meminfo) ];
     sc_pagesize := 4096 |}.

(** The same without the coherency_line_size file. *)
Definition x86_host_without_lnsz : host :=
  {| files := [ ("/proc/cpuinfo", ""); ("/proc/meminfo", meminfo_2M) ];
     sc_pagesize := 4096 |}.

(** The same with /proc/meminfo out of reach. *)
Definition x86_host_without_meminfo : host :=
  {| files := [ (CACHE_LNSZ_FILE, "64" ++ nl); ("/proc/cpuinfo", "") ];
     sc_pagesize := 4096 |}.

Definition hugepages_line : string := "none /dev/hugepages hugetlbfs rw 0 0".

(** A ThunderX host with the given mount table. *)
Definition thunderx_host (mounts : string) : host :=
  {| files := [ ("/proc/mounts", mounts); ("/proc/cpuinfo", "");
                ("/proc/meminfo", meminfo_2M) ];
     sc_pagesize := 4096 |}.

Definition mounts_with_hugepages : string :=
  "proc /proc proc rw,relatime 0 0" ++ nl ++ hugepages_line ++ nl.

Definition mounts_without_hugepages : string :=
  "proc /proc proc rw,relatime 0 0" ++ nl ++
  "sysfs /sys sysfs rw,relatime 0 0" ++ nl.

(** A short line after the hugetlbfs mount. *)
Definition mounts_short_line_last : string :=
  hugepages_line ++ nl ++ "tmpfs /run" ++ nl.

(** A short line before the hugetlbfs mount. *)
Definition mounts_short_line_first : string :=
  "tmpfs /run" ++ nl ++ hugepages_line ++ nl.

(** The parts of an outcome. *)
Definition returned_code {A S E} (o : outcome (A * S * E)) : option A :=
  match o with Returns (r, _, _) => Some r | Undefined => None end.

Definition returned_record {A S E} (o : outcome (A * S * E)) : option S :=
  match o with Returns (_, g, _) => Some g | Undefined => None end.

Definition diagnostics {A S E} (o : outcome (A * S * E)) : option E :=
  match o with Returns (_, _, e) => Some e | Undefined => None end.

(** ** Vocabulary of the statements *)

Section Probes.

Variable cfg : build_config.
Variable cpuinfo_parser : Libc.FILE -> system_info_t -> system_info_t.
Variable h : host.

(** The field [huge_page_dir] compares with [hugefs]: [cols[2]] of a
    line. *)
Definition fstype_of (line : string) : option string :=
  nth_error (cols_of line) 2.

(** A line the scan passes over: three fields, not a hugetlbfs mount. *)
Definition passed_over (line : string) : Prop :=
  List.length (cols_of line) = ncols /\ fstype_of line <> Some hugefs.

(** The steps of [odp_system_info_init] before [systemcpu] go through: the
    page size and the huge page directory where the build asks for them, and
    /proc/cpuinfo opens. *)
Definition reaches_systemcpu : Prop :=
  (HAVE_THUNDERX cfg = true ->
     0 <= sc_pagesize h /\
     exists g g' errs, huge_page_dir h g = Returns (0, g', errs)) /\
  Libc.fopen (files h) "/proc/cpuinfo" <> None.

(** The mandatory probes other than the cache line size succeed. *)
Definition other_mandatory_probes_ok (g : odp_global_data_s) : Prop :=
  reaches_systemcpu /\ num_cpus_installed g <> 0.


(** [odp_system_info_init] from the call of [systemcpu] on. *)
Definition init_from_systemcpu (gs : odp_global_data_s)
  : outcome (Z * odp_global_data_s * list odp_err) :=
  match systemcpu cfg h gs with
  | Undefined => Undefined
  | Returns (r, g', errs) =>
      if negb (r =? 0) then Returns (-1, g', (errs ++ [err_systemcpu])%list)
      else Returns (0, g', errs)
  end.

(** The diagnostics of the steps before [systemcpu]. *)
Definition early_error (e : odp_err) : Prop :=
  In e [err_sc_pagesize; err_fopen_mounts; err_parsing_mounts;
        err_hugepage_dir; err_open_cpuinfo].

(** The call returned, with this code, final record and diagnostics. *)
Definition init_returns (g : odp_global_data_s) (r : Z)
           (g' : odp_global_data_s) (errs : list odp_err) : Prop :=
  odp_system_info_init cfg cpuinfo_parser h g = Returns (r, g', errs).

(** The call failed: it returned -1. *)
Definition init_fails (g : odp_global_data_s) : Prop :=
  exists g' errs, init_returns g (-1) g' errs.

End Probes.

(** ** The frequency accessors *)

Section Clock.

(** The run-time frequency sampling of the architecture and the CPU the
    caller runs on, both outside this file. *)
Variable odp_cpu_hz_current : Z -> Z.
Variable sched_getcpu : Z.

Definition odp_cpu_hz_id (id : Z) : Z := odp_cpu_hz_current id.

Definition odp_cpu_hz : Z :=
  let id := sched_getcpu in
  odp_cpu_hz_current id.

End Clock.

(** ** Vocabulary of the further statements *)

(** [k] space characters. *)
Fixpoint spaces (k : nat) : string :=
  match k with
  | O => ""
  | S k' => String " " (spaces k')
  end.

(** The character [c] does not occur in [s]. *)
Fixpoint without (c : ascii) (s : string) : bool :=
  match s with
  | EmptyString => true
  | String a s' => negb (Ascii.eqb a c) && without c s'
  end.

(** A field of a mount line as the kernel prints it: not empty, without
    space and without NUL. *)
Definition mount_field (s : string) : Prop :=
  s <> "" /\ without " " s = true /\ without Libc.NUL s = true.

(** Decimal digits and the number they write. *)
Definition digit_char (d : nat) : ascii := ascii_of_nat (48 + d).

Fixpoint render_digits (ds : list nat) : string :=
  match ds with
  | [] => ""
  | d :: t => String (digit_char d) (render_digits t)
  end.

Definition digits_value (ds : list nat) : Z :=
  fold_left (fun acc d => acc * 10 + Z.of_nat d) ds 0.

Definition decimal (ds : list nat) : Prop :=
  Forall (fun d => (d < 10)%nat) ds.

Section Finals.

Variable cfg : build_config.
Variable cpuinfo_parser : Libc.FILE -> system_info_t -> system_info_t.
Variable h : host.

(** The contract of the parser: it writes the two per-CPU tables and no
    other field, and it does not resize the tables. *)
Definition parser_writes_tables_only : Prop :=
  forall file s,
    SI.default_huge_page_size (cpuinfo_parser file s)
      = SI.default_huge_page_size s /\
    SI.page_size (cpuinfo_parser file s) = SI.page_size s /\
    SI.cache_line_size (cpuinfo_parser file s) = SI.cache_line_size s /\
    SI.cpu_count (cpuinfo_parser file s) = SI.cpu_count s /\
    SI.huge_page_dir (cpuinfo_parser file s) = SI.huge_page_dir s.

Definition parser_keeps_table_lengths : Prop :=
  forall file s,
    List.length (SI.cpu_hz_max (cpuinfo_parser file s))
      = List.length (SI.cpu_hz_max s) /\
    List.length (SI.model_str (cpuinfo_parser file s))
      = List.length (SI.model_str s).

(** The record when /proc/cpuinfo is opened. *)
Definition before_cpuinfo (s0 : system_info_t) : Prop :=
  if HAVE_THUNDERX cfg
  then 0 <= sc_pagesize h /\
       exists dir, s0 = set_huge_page_dir dir
                          (set_page_size (sc_pagesize h) (zeroed cfg))
  else s0 = set_page_size (ODP_PAGE_SIZE cfg) (zeroed cfg).

(** The return codes of [odp_system_info_init] and the records it can leave
    behind, with [n] CPUs installed: one constructor per [return]. *)
Inductive final_record (n : Z) : Z -> system_info_t -> Prop :=
| final_pagesize :
    HAVE_THUNDERX cfg = true -> sc_pagesize h < 0 ->
    final_record n (-1) (zeroed cfg)
| final_hugepage_dir :
    HAVE_THUNDERX cfg = true -> 0 <= sc_pagesize h ->
    final_record n (-1) (set_page_size (sc_pagesize h) (zeroed cfg))
| final_cpuinfo s0 :
    before_cpuinfo s0 ->
    Libc.fopen (files h) "/proc/cpuinfo" = None ->
    final_record n (-1) s0
| final_cpu_count s0 file :
    before_cpuinfo s0 ->
    Libc.fopen (files h) "/proc/cpuinfo" = Some file ->
    n = 0 ->
    final_record n (-1) (cpuinfo_parser file s0)
| final_cache_line_size s0 file :
    before_cpuinfo s0 ->
    Libc.fopen (files h) "/proc/cpuinfo" = Some file ->
    n <> 0 ->
    systemcpu_cache_line_size cfg h = 0 ->
    final_record n (-1) (set_cpu_count n (cpuinfo_parser file s0))
| final_mismatch s0 file :
    before_cpuinfo s0 ->
    Libc.fopen (files h) "/proc/cpuinfo" = Some file ->
    n <> 0 ->
    systemcpu_cache_line_size cfg h <> 0 ->
    systemcpu_cache_line_size cfg h <> ODP_CACHE_LINE_SIZE cfg ->
    final_record n (-1)
      (set_cache_line_size (systemcpu_cache_line_size cfg h)
         (set_cpu_count n (cpuinfo_parser file s0)))
| final_success s0 file sz :
    before_cpuinfo s0 ->
    Libc.fopen (files h) "/proc/cpuinfo" = Some file ->
    n <> 0 ->
    systemcpu_cache_line_size cfg h <> 0 ->
    systemcpu_cache_line_size cfg h = ODP_CACHE_LINE_SIZE cfg ->
    0 <= sz < UINT64_MOD ->
    sz mod 1024 = 0 ->
    final_record n 0
      (set_default_huge_page_size sz
         (set_cache_line_size (systemcpu_cache_line_size cfg h)
            (set_cpu_count n (cpuinfo_parser file s0)))).

End Finals.

(** ** Mount tables as the kernel prints them *)









(** ** Properties of the C library model *)

Module LibcFacts.
Import Libc.


Lemma read_chunk_append (n : nat) (f : FILE) :
  (fst (read_chunk n f) ++ snd (read_chunk n f))%string = f.
Proof.
  revert f; induction n as [|n IH]; intros f; simpl; [reflexivity|].
  destruct f as [|c f]; simpl; [reflexivity|].
  destruct (Ascii.eqb c newline); simpl; [reflexivity|].
  specialize (IH f). destruct (read_chunk n f) as [l r]; simpl in *.
  now rewrite IH.
Qed.

(** A call of [fgets] with room for a character shortens the stream. *)
Lemma read_chunk_progress (n : nat) (c : ascii) (f : FILE) :
  (String.length (snd (read_chunk (S n) (String c f))) <= String.length f)%nat.
Proof.
  revert c f; induction n as [|n IH]; intros c f; simpl.
  - destruct (Ascii.eqb c newline); simpl; lia.
  - destruct (Ascii.eqb c newline); simpl; [lia|].
    destruct f as [|c' f]; simpl; [lia|].
    specialize (IH c' f). simpl in IH.
    destruct (Ascii.eqb c' newline); simpl in *; [lia|].
    destruct (read_chunk n f) as [l r]; simpl in *; lia.
Qed.


(** The fuel of [fgets_all] suffices: the lines read are the whole
    stream. *)
Lemma fgets_loop_complete (size : nat) :
  (2 <= size)%nat ->
  forall (fuel : nat) (f : FILE),
    (String.length f <= fuel)%nat ->
    fold_right String.append "" (fgets_loop fuel size f) = f.
Proof.
  intros Hsize fuel; induction fuel as [|k IH]; intros f Hlen.
  - destruct f; simpl in *; [reflexivity|lia].
  - destruct f as [|c f]; [reflexivity|].
    cbn [fgets_loop fgets].
    destruct (size - 1)%nat as [|n] eqn:En; [lia|].
    pose proof (read_chunk_progress n c f) as P.
    pose proof (read_chunk_append (S n) (String c f)) as A.
    destruct (read_chunk (S n) (String c f)) as [l r]; simpl in P, A.
    cbn [fold_right]. rewrite IH by (simpl in Hlen; lia). exact A.
Qed.

Lemma fgets_all_complete (size : nat) (f : FILE) :
  (2 <= size)%nat ->
  fold_right String.append "" (fgets_all size f) = f.
Proof.
  intros Hsize; unfold fgets_all; apply fgets_loop_complete; [exact Hsize|lia].
Qed.






Lemma take_all (n : nat) (s : string) :
  (String.length s <= n)%nat -> take n s = s.
Proof.
  revert s; induction n as [|n IH]; intros s H.
  - destruct s; simpl in *; [reflexivity|lia].
  - destruct s as [|c s]; simpl in *; [reflexivity|].
    rewrite IH by lia; reflexivity.
Qed.

End LibcFacts.

(** ** The monadic functions, run *)

Section Runs.

Variable cfg : build_config.
Variable cpuinfo_parser : Libc.FILE -> system_info_t -> system_info_t.
Variable h : host.

Ltac run := unfold bind, ret, ODP_ERR, store, read_global, undefined.

(** The scan of /proc/meminfo always returns and writes nothing. *)
Lemma default_huge_page_size_scan_returns (lines : list string)
      (g : odp_global_data_s) :
  exists sz errs,
    default_huge_page_size_scan lines g = Returns (sz, g, errs) /\
    (errs = [] \/ (errs = [err_hp_size] /\ sz = 0)).
Proof.
  induction lines as [|str rest IH]; simpl.
  - exists 0, [err_hp_size]; run; auto.
  - destruct (Libc.sscanf_hugepagesize (Libc.c_str str)) as [sz|].
    + exists ((sz * 1024) mod UINT64_MOD), []; run; auto.
    + exact IH.
Qed.

Lemma default_huge_page_size_cases (g : odp_global_data_s) :
  (Libc.fopen (files h) "/proc/meminfo" = None /\
   default_huge_page_size h g = Undefined) \/
  (Libc.fopen (files h) "/proc/meminfo" <> None /\
   exists sz errs, default_huge_page_size h g = Returns (sz, g, errs) /\
                   (errs = [] \/ (errs = [err_hp_size] /\ sz = 0))).
Proof.
  unfold default_huge_page_size.
  destruct (Libc.fopen (files h) "/proc/meminfo") as [file|].
  - right; split; [discriminate|apply default_huge_page_size_scan_returns].
  - left; split; reflexivity.
Qed.

Lemma systemcpu_run (g : odp_global_data_s) :
  systemcpu cfg h g =
  let n := num_cpus_installed g in
  if n =? 0 then Returns (-1, g, [err_cpu_count])
  else
    let g1 := with_system_info g (set_cpu_count n (system_info g)) in
    let r := systemcpu_cache_line_size cfg h in
    if r =? 0 then Returns (-1, g1, [err_cache_line_size])
    else
      let g2 := with_system_info g1 (set_cache_line_size r (system_info g1)) in
      if negb (r =? ODP_CACHE_LINE_SIZE cfg)
      then Returns (-1, g2, [err_cache_line_mismatch])
      else
        match default_huge_page_size h g2 with
        | Undefined => Undefined
        | Returns (sz, g3, errs) =>
            Returns (0, with_system_info g3
                          (set_default_huge_page_size sz (system_info g3)),
                     errs)
        end.
Proof.
  unfold systemcpu, sysconf_cpu_count; run; cbv zeta.
  destruct (num_cpus_installed g =? 0); [reflexivity|].
  destruct (systemcpu_cache_line_size cfg h =? 0); [reflexivity|].
  destruct (negb (systemcpu_cache_line_size cfg h =? ODP_CACHE_LINE_SIZE cfg));
    [reflexivity|].
  match goal with |- context [default_huge_page_size h ?x] =>
    destruct (default_huge_page_size h x) as [[[sz g3] errs]|] end;
    [|reflexivity].
  simpl. now rewrite app_nil_r.
Qed.

Lemma init_cpuinfo_run (g : odp_global_data_s) :
  init_cpuinfo cfg cpuinfo_parser h g =
  match Libc.fopen (files h) "/proc/cpuinfo" with
  | None => Returns (-1, g, [err_open_cpuinfo])
  | Some file =>
      match systemcpu cfg h
              (with_system_info g (cpuinfo_parser file (system_info g))) with
      | Undefined => Undefined
      | Returns (r, g', errs) =>
          if negb (r =? 0) then Returns (-1, g', (errs ++ [err_systemcpu])%list)
          else Returns (0, g', errs)
      end
  end.
Proof.
  unfold init_cpuinfo.
  destruct (Libc.fopen (files h) "/proc/cpuinfo") as [file|]; [|reflexivity].
  run.
  match goal with |- context [systemcpu cfg h ?x] =>
    destruct (systemcpu cfg h x) as [[[r g'] errs]|] end; [|reflexivity].
  destruct (negb (r =? 0)); simpl; [reflexivity|now rewrite app_nil_r].
Qed.

Lemma odp_system_info_init_run (g : odp_global_data_s) :
  odp_system_info_init cfg cpuinfo_parser h g =
  let g0 := with_system_info g (zeroed cfg) in
  if HAVE_THUNDERX cfg then
    if sc_pagesize h <? 0 then Returns (-1, g0, [err_sc_pagesize])
    else
      let g1 := with_system_info g0 (set_page_size (sc_pagesize h)
                                                   (system_info g0)) in
      match huge_page_dir h g1 with
      | Undefined => Undefined
      | Returns (r, g2, errs) =>
          if negb (r =? 0)
          then Returns (-1, g2, (errs ++ [err_hugepage_dir])%list)
          else
            match init_cpuinfo cfg cpuinfo_parser h g2 with
            | Undefined => Undefined
            | Returns (r', g3, errs') => Returns (r', g3, (errs ++ errs')%list)
            end
      end
  else
    init_cpuinfo cfg cpuinfo_parser h
      (with_system_info g0 (set_page_size (ODP_PAGE_SIZE cfg) (system_info g0))).
Proof.
  unfold odp_system_info_init; run; cbv zeta.
  destruct (HAVE_THUNDERX cfg).
  - destruct (sc_pagesize h <? 0); [reflexivity|].
    match goal with |- context [huge_page_dir h ?x] =>
      destruct (huge_page_dir h x) as [[[r g2] errs]|] end; [|reflexivity].
    destruct (negb (r =? 0)); [reflexivity|].
    destruct (init_cpuinfo cfg cpuinfo_parser h g2) as [[[r' g3] errs']|];
      reflexivity.
  - simpl.
    match goal with |- context [init_cpuinfo cfg cpuinfo_parser h ?x] =>
      destruct (init_cpuinfo cfg cpuinfo_parser h x) as [[[r' g3] errs']|] end;
      reflexivity.
Qed.

End Runs.

(** ** The scan of the mount table *)

Section MountScan.

Variable h : host.

Lemma split_cols_bound (n : nat) (saved : string) :
  (List.length (split_cols n saved) <= n)%nat.
Proof.
  revert saved; induction n as [|n IH]; intros saved; simpl; [lia|].
  destruct (Libc.strtok " " saved) as [[tok rest]|]; simpl; [|lia].
  specialize (IH rest); lia.
Qed.



Lemma scan_passes_over (pre rest : list string) (g : odp_global_data_s) :
  Forall passed_over pre ->
  huge_page_dir_scan (pre ++ rest) g = huge_page_dir_scan rest g.
Proof.
  induction 1 as [|line pre [Hn Hf] _ IH]; [reflexivity|].
  simpl. unfold fstype_of in Hf.
  destruct (cols_of line) as [|a [|b [|c [|d l]]]]; try discriminate Hn.
  simpl in Hf. destruct (String.eqb_spec c hugefs) as [->|_]; [|exact IH].
  now contradiction Hf.
Qed.

Lemma scan_finds (line dev mp : string) (post : list string)
      (g : odp_global_data_s) :
  cols_of line = [dev; mp; hugefs] ->
  huge_page_dir_scan (line :: post) g =
  Returns (0, with_system_info g
                (set_huge_page_dir
                   (Libc.strncpy_terminated Libc.PATH_MAX mp)
                   (system_info g)), []).
Proof.
  intros Hcols; simpl; rewrite Hcols. reflexivity.
Qed.

Lemma scan_rejects (line : string) (post : list string)
      (g : odp_global_data_s) :
  (List.length (cols_of line) < ncols)%nat ->
  huge_page_dir_scan (line :: post) g = Returns (-1, g, [err_parsing_mounts]).
Proof.
  intros Hn; simpl.
  destruct (cols_of line) as [|a [|b [|c [|d l]]]]; simpl in Hn;
    try reflexivity; unfold ncols in Hn; lia.
Qed.

(** Without a hugetlbfs line the scan returns -1 and writes nothing. *)
Lemma scan_without_hugetlbfs (lines : list string) (g : odp_global_data_s) :
  Forall (fun line => fstype_of line <> Some hugefs) lines ->
  exists errs, huge_page_dir_scan lines g = Returns (-1, g, errs) /\
               (errs = [] \/ errs = [err_parsing_mounts]).
Proof.
  induction 1 as [|line lines Hf _ IH]; simpl.
  - exists []; auto.
  - unfold fstype_of in Hf.
    destruct (cols_of line) as [|a [|b [|c [|d l]]]];
      try (exists [err_parsing_mounts]; auto; fail).
    simpl in Hf. destruct (String.eqb_spec c hugefs) as [->|_]; [|exact IH].
    now contradiction Hf.
Qed.

(** The scan returns 0 after one store of the directory, or -1 without a
    store; what it returns does not depend on the record. *)
Lemma scan_cases (lines : list string) :
  (exists dir, forall g,
      huge_page_dir_scan lines g =
      Returns (0, with_system_info g (set_huge_page_dir dir (system_info g)),
               [])) \/
  (exists errs, (errs = [] \/ errs = [err_parsing_mounts]) /\
     forall g, huge_page_dir_scan lines g = Returns (-1, g, errs)).
Proof.
  induction lines as [|line lines IH]; simpl.
  - right; exists []; auto.
  - destruct (cols_of line) as [|a [|b [|c [|d l]]]];
      try (right; exists [err_parsing_mounts]; auto; fail).
    destruct (String.eqb c hugefs); [|exact IH].
    left; eexists; intros g; reflexivity.
Qed.

Lemma huge_page_dir_cases :
  (exists dir, forall g,
      huge_page_dir h g =
      Returns (0, with_system_info g (set_huge_page_dir dir (system_info g)),
               [])) \/
  (exists errs, (forall e, In e errs -> early_error e) /\
     forall g, huge_page_dir h g = Returns (-1, g, errs)).
Proof.
  unfold huge_page_dir.
  destruct (Libc.fopen (files h) "/proc/mounts") as [f|].
  - destruct (scan_cases (Libc.fgets_all Libc.PATH_MAX f))
      as [[dir H]|[errs [[->| ->] H]]].
    + left; exists dir; exact H.
    + right; exists []; split; [intros e []|exact H].
    + right; exists [err_parsing_mounts]; split; [|exact H].
      intros e [<-|[]]; unfold early_error; simpl; auto.
  - right; exists [err_fopen_mounts]; split; [|reflexivity].
    intros e [<-|[]]; unfold early_error; simpl; auto.
Qed.

End MountScan.

(** ** The stages of the initialisation *)

Section Stages.

Variable cfg : build_config.
Variable cpuinfo_parser : Libc.FILE -> system_info_t -> system_info_t.
Variable h : host.


(** Either a step before [systemcpu] fails, or [systemcpu] runs on a record
    with the boot-time CPU count unchanged. *)
Lemma init_cases (g : odp_global_data_s) :
  (~ reaches_systemcpu cfg h /\
   exists g' errs,
     odp_system_info_init cfg cpuinfo_parser h g = Returns (-1, g', errs) /\
     forall e, In e errs -> early_error e) \/
  (reaches_systemcpu cfg h /\
   exists gs, num_cpus_installed gs = num_cpus_installed g /\
              odp_system_info_init cfg cpuinfo_parser h g =
              init_from_systemcpu cfg h gs).
Proof.
  unfold reaches_systemcpu, init_from_systemcpu.
  rewrite odp_system_info_init_run; cbv zeta.
  assert (Hcpuinfo : forall g2,
    (Libc.fopen (files h) "/proc/cpuinfo" = None /\
     init_cpuinfo cfg cpuinfo_parser h g2 = Returns (-1, g2, [err_open_cpuinfo]))
    \/
    (Libc.fopen (files h) "/proc/cpuinfo" <> None /\
     exists gs, num_cpus_installed gs = num_cpus_installed g2 /\
       init_cpuinfo cfg cpuinfo_parser h g2 =
       match systemcpu cfg h gs with
       | Undefined => Undefined
       | Returns (r, g', errs) =>
           if negb (r =? 0)
           then Returns (-1, g', (errs ++ [err_systemcpu])%list)
           else Returns (0, g', errs)
       end)).
  { intros g2. rewrite init_cpuinfo_run.
    destruct (Libc.fopen (files h) "/proc/cpuinfo") as [file|].
    - right; split; [discriminate|].
      exists (with_system_info g2 (cpuinfo_parser file (system_info g2))).
      split; reflexivity.
    - left; split; reflexivity. }
  assert (Hearly : forall e, In e [err_open_cpuinfo] -> early_error e).
  { intros e [<-|[]]; unfold early_error; simpl; auto 6. }
  destruct (HAVE_THUNDERX cfg) eqn:Ht.
  - destruct (Z.ltb_spec (sc_pagesize h) 0) as [Hneg|Hpos].
    + left; split; [intros [H _]; specialize (H eq_refl); lia|].
      do 2 eexists; split; [reflexivity|].
      intros e [<-|[]]; unfold early_error; simpl; auto.
    + destruct (huge_page_dir_cases h) as [[dir Hd]|[errs [He Hd]]].
      * rewrite Hd; simpl negb; cbv iota.
        match goal with |- context [init_cpuinfo _ _ _ ?x] =>
          destruct (Hcpuinfo x) as [[Hn ->]|[Hs (gs & Hgs & ->)]] end.
        -- left; split; [intros [_ H]; contradiction|].
           do 2 eexists; split; [reflexivity|exact Hearly].
        -- right; split.
           ++ split; [|exact Hs]. intros _; split; [exact Hpos|].
              exists g; do 2 eexists; apply Hd.
           ++ exists gs; split; [exact Hgs|].
              destruct (systemcpu cfg h gs) as [[[r g'] e]|]; [|reflexivity].
              destruct (negb (r =? 0)); reflexivity.
      * rewrite Hd; simpl negb; cbv iota.
        left; split.
        -- intros [H _]; destruct (H eq_refl) as [_ (g0 & g' & e & Hr)].
           rewrite Hd in Hr; discriminate.
        -- do 2 eexists; split; [reflexivity|].
           intros e Hin; apply in_app_or in Hin as [Hin|[<-|[]]];
             [auto|unfold early_error; simpl; auto 6].
  - match goal with |- context [init_cpuinfo _ _ _ ?x] =>
      destruct (Hcpuinfo x) as [[Hn ->]|[Hs (gs & Hgs & ->)]] end.
    + left; split; [intros [_ H]; contradiction|].
      do 2 eexists; split; [reflexivity|exact Hearly].
    + right; split; [split; [discriminate|exact Hs]|].
      exists gs; split; [exact Hgs|reflexivity].
Qed.

(** [systemcpu] and what follows it in [odp_system_info_init], by the three
    tests of [systemcpu]. *)
Lemma init_from_systemcpu_cases (gs : odp_global_data_s) :
  let n := num_cpus_installed gs in
  let r := systemcpu_cache_line_size cfg h in
  let g1 := with_system_info gs (set_cpu_count n (system_info gs)) in
  let g2 := with_system_info g1 (set_cache_line_size r (system_info g1)) in
  (n = 0 /\
   init_from_systemcpu cfg h gs =
   Returns (-1, gs, [err_cpu_count; err_systemcpu])) \/
  (n <> 0 /\ r = 0 /\
   init_from_systemcpu cfg h gs =
   Returns (-1, g1, [err_cache_line_size; err_systemcpu])) \/
  (n <> 0 /\ r <> 0 /\ r <> ODP_CACHE_LINE_SIZE cfg /\
   init_from_systemcpu cfg h gs =
   Returns (-1, g2, [err_cache_line_mismatch; err_systemcpu])) \/
  (n <> 0 /\ r <> 0 /\ r = ODP_CACHE_LINE_SIZE cfg /\
   Libc.fopen (files h) "/proc/meminfo" = None /\
   init_from_systemcpu cfg h gs = Undefined) \/
  (n <> 0 /\ r <> 0 /\ r = ODP_CACHE_LINE_SIZE cfg /\
   Libc.fopen (files h) "/proc/meminfo" <> None /\
   exists sz errs,
     (errs = [] \/ (errs = [err_hp_size] /\ sz = 0)) /\
     init_from_systemcpu cfg h gs =
     Returns (0, with_system_info g2
                   (set_default_huge_page_size sz (system_info g2)), errs)).
Proof.
  cbv zeta. unfold init_from_systemcpu. rewrite systemcpu_run; cbv zeta.
  destruct (Z.eqb_spec (num_cpus_installed gs) 0) as [Hn|Hn]; [left; auto|].
  destruct (Z.eqb_spec (systemcpu_cache_line_size cfg h) 0) as [Hr|Hr];
    [right; left; auto|].
  destruct (Z.eqb_spec (systemcpu_cache_line_size cfg h)
                       (ODP_CACHE_LINE_SIZE cfg)) as [He|He]; simpl negb;
    cbv iota; [|right; right; left; auto].
  right; right; right.
  match goal with |- context [default_huge_page_size h ?x] =>
    destruct (default_huge_page_size_cases h x)
      as [[Hm ->]|[Hm (sz & e & -> & Hsz)]] end.
  - left; auto.
  - right; repeat (split; [assumption|]).
    exists sz, e; split; [exact Hsz|reflexivity].
Qed.

End Stages.

(** ** Cache line size *)

(** The comparison with the build where /proc/meminfo opens: a probe that
    differs from [ODP_CACHE_LINE_SIZE] makes [odp_system_info_init] fail;
    a probe equal to it, the constant not being zero and the other
    mandatory probes succeeding, gives 0 with [odp_sys_cache_line_size]
    returning the constant. *)
Lemma cache_line_size_check_with_meminfo
        (cfg : build_config)
        (cpuinfo_parser : Libc.FILE -> system_info_t -> system_info_t)
        (h : host) (g : odp_global_data_s) :
  (systemcpu_cache_line_size cfg h <> ODP_CACHE_LINE_SIZE cfg ->
   init_fails cfg cpuinfo_parser h g) /\
  (systemcpu_cache_line_size cfg h = ODP_CACHE_LINE_SIZE cfg ->
   ODP_CACHE_LINE_SIZE cfg <> 0 ->
   other_mandatory_probes_ok cfg h g ->
   Libc.fopen (files h) "/proc/meminfo" <> None ->
   exists g' errs,
     init_returns cfg cpuinfo_parser h g 0 g' errs /\
     odp_sys_cache_line_size g' = ODP_CACHE_LINE_SIZE cfg).
Proof.
  unfold init_fails, init_returns. split.
  - intros Hne.
    destruct (init_cases cfg cpuinfo_parser h g)
      as [[_ (g' & errs & H & _)]|[_ (gs & _ & ->)]]; [eauto|].
    destruct (init_from_systemcpu_cases cfg h gs)
      as [[_ H]|[(_ & _ & H)|[(_ & _ & _ & H)|[(_ & _ & He & _)
         |(_ & _ & He & _)]]]]; eauto; contradiction.
  - intros Heq Hnz [Hreach Hn] Hmem.
    destruct (init_cases cfg cpuinfo_parser h g)
      as [[Hnot _]|[_ (gs & Hgs & ->)]]; [contradiction|].
    rewrite <- Hgs in Hn.
    destruct (init_from_systemcpu_cases cfg h gs)
      as [[H0 _]|[(_ & H0 & _)|[(_ & _ & H0 & _)|[(_ & _ & _ & H0 & _)
         |(_ & _ & _ & _ & sz & errs & _ & H)]]]];
      try contradiction; try congruence.
    do 2 eexists; split; [exact H|]. simpl. exact Heq.
Qed.

Lemma cache_line_size_check_with_meminfo_example :
  (systemcpu_cache_line_size x86_build (x86_host ("128" ++ nl) meminfo_2M) <> 64 /\
   init_fails x86_build cpu0_parser (x86_host ("128" ++ nl) meminfo_2M) (boot 4)) /\
  (systemcpu_cache_line_size x86_build (x86_host ("64" ++ nl) meminfo_2M) = 64 /\
   exists g' errs,
     init_returns x86_build cpu0_parser (x86_host ("64" ++ nl) meminfo_2M)
                  (boot 4) 0 g' errs /\
     odp_sys_cache_line_size g' = 64).
Proof.
  split.
  - split; [vm_compute; discriminate|].
    apply (proj1 (cache_line_size_check_with_meminfo
                    x86_build cpu0_parser
                    (x86_host ("128" ++ nl) meminfo_2M) (boot 4))).
    vm_compute; discriminate.
  - split; [vm_compute; reflexivity|].
    apply (proj2 (cache_line_size_check_with_meminfo
                    x86_build cpu0_parser
                    (x86_host ("64" ++ nl) meminfo_2M) (boot 4))).
    + vm_compute; reflexivity.
    + simpl; lia.
    + split; [split|]; [intros H; discriminate H| |]; vm_compute; discriminate.
    + vm_compute; discriminate.
Defined.

(** A mismatch found by [systemcpu] is reported as such. *)
Lemma cache_line_mismatch_reported
      (cfg : build_config)
      (cpuinfo_parser : Libc.FILE -> system_info_t -> system_info_t)
      (h : host) (g : odp_global_data_s) :
  systemcpu_cache_line_size cfg h <> ODP_CACHE_LINE_SIZE cfg ->
  systemcpu_cache_line_size cfg h <> 0 ->
  other_mandatory_probes_ok cfg h g ->
  exists g',
    init_returns cfg cpuinfo_parser h g (-1) g'
                 [err_cache_line_mismatch; err_systemcpu].
Proof.
  unfold init_returns. intros Hne Hnz [Hreach Hn].
  destruct (init_cases cfg cpuinfo_parser h g)
    as [[Hnot _]|[_ (gs & Hgs & ->)]]; [contradiction|].
  rewrite <- Hgs in Hn.
  destruct (init_from_systemcpu_cases cfg h gs)
    as [[H0 _]|[(_ & H0 & _)|[(_ & _ & _ & H)|[(_ & _ & H0 & _)
       |(_ & _ & H0 & _)]]]];
    try contradiction.
  eauto.
Qed.

(** C1, at the failing input: the cache line probe gives the compiled
    constant and the other mandatory probes succeed, but /proc/meminfo
    does not open: [odp_system_info_init] does not return 0, nor anything
    else; the stream given to [fgets] is NULL. *)
Theorem matching_probe_without_meminfo :
  systemcpu_cache_line_size x86_build x86_host_without_meminfo
    = ODP_CACHE_LINE_SIZE x86_build /\
  other_mandatory_probes_ok x86_build x86_host_without_meminfo (boot 4) /\
  ~ (exists g' errs,
       init_returns x86_build cpu0_parser x86_host_without_meminfo (boot 4)
                    0 g' errs) /\
  returned_code (odp_system_info_init x86_build cpu0_parser
                   x86_host_without_meminfo (boot 4)) = None.
Proof.
  split; [vm_compute; reflexivity|]. split.
  - split; [split|]; [intros H; discriminate H| |]; vm_compute; discriminate.
  - split; [|vm_compute; reflexivity].
    intros (g' & errs & H). unfold init_returns in H.
    vm_compute in H. discriminate H.
Qed.

(** C2, at an input: after the initialisation has failed on the cache line
    mismatch (sysfs reports 128, the build has 64), the record still holds
    the mismatched cache line size and the CPU count. *)
Lemma record_kept_after_mismatch :
  let run := odp_system_info_init x86_build no_parser
               (x86_host ("128" ++ nl) meminfo_2M) (boot 4) in
  returned_code run = Some (-1) /\
  diagnostics run = Some [err_cache_line_mismatch; err_systemcpu] /\
  option_map odp_sys_cache_line_size (returned_record run) = Some 128 /\
  option_map odp_cpu_count (returned_record run) = Some 4.
Proof. vm_compute; repeat split. Qed.

(** C2, amended: when the initialisation fails on the cache line mismatch it
    returns -1 and the record is not rolled back: it holds the boot-time CPU
    count, which is not zero, and the probed cache line size, which is
    neither zero nor the compiled constant. *)
Theorem mismatch_leaves_probed_record
        (cfg : build_config)
        (cpuinfo_parser : Libc.FILE -> system_info_t -> system_info_t)
        (h : host) (g g' : odp_global_data_s) (r : Z) (errs : list odp_err) :
  init_returns cfg cpuinfo_parser h g r g' errs ->
  In err_cache_line_mismatch errs ->
  r = -1 /\
  odp_cpu_count g' = num_cpus_installed g /\
  odp_cpu_count g' <> 0 /\
  odp_sys_cache_line_size g' = systemcpu_cache_line_size cfg h /\
  odp_sys_cache_line_size g' <> ODP_CACHE_LINE_SIZE cfg /\
  odp_sys_cache_line_size g' <> 0.
Proof.
  unfold init_returns. intros Hrun Hin.
  destruct (init_cases cfg cpuinfo_parser h g)
    as [[_ (g1 & e1 & H & Hearly)]|[_ (gs & Hgs & H)]]; rewrite H in Hrun.
  - injection Hrun as <- <- <-. apply Hearly in Hin.
    unfold early_error in Hin; simpl in Hin; intuition discriminate.
  - clear H.
    destruct (init_from_systemcpu_cases cfg h gs)
      as [[_ H]|[(_ & _ & H)|[(Hn & Hr & Hne & H)|[(_ & _ & _ & _ & H)
         |(_ & _ & _ & _ & sz & e & He & H)]]]];
      rewrite H in Hrun; try discriminate Hrun;
      injection Hrun as <- <- <-; simpl in Hin.
    + intuition discriminate.
    + intuition discriminate.
    + unfold odp_cpu_count, odp_sys_cache_line_size; simpl.
      rewrite <- Hgs. auto 10.
    + destruct He as [->|[-> _]]; simpl in Hin; intuition discriminate.
Qed.

Lemma mismatch_leaves_probed_record_witness :
  exists g',
    init_returns x86_build cpu0_parser (x86_host ("128" ++ nl) meminfo_2M)
                 (boot 4) (-1) g' [err_cache_line_mismatch; err_systemcpu] /\
    In err_cache_line_mismatch [err_cache_line_mismatch; err_systemcpu] /\
    odp_cpu_count g' = 4 /\ odp_sys_cache_line_size g' = 128.
Proof.
  eexists. split; [vm_compute; reflexivity|].
  split; [simpl; auto|].
  match goal with |- odp_cpu_count ?g' = _ /\ _ =>
    pose proof (mismatch_leaves_probed_record
                  x86_build cpu0_parser (x86_host ("128" ++ nl) meminfo_2M)
                  (boot 4) g' (-1) [err_cache_line_mismatch; err_systemcpu])
      as W end.
  destruct W as (_ & Hc & _ & Hl & _); [vm_compute; reflexivity|simpl; auto|].
  split; [exact Hc|rewrite Hl; vm_compute; reflexivity].
Defined.

(** C3, at an input: on a sysfs build, without the coherency_line_size file
    and with every other source in place, the initialisation returns -1 on
    the failed cache line probe and the record holds no cache line size. *)
Lemma absent_lnsz_file_aborts :
  let run := odp_system_info_init x86_build no_parser
               x86_host_without_lnsz (boot 4) in
  SYSFS_CACHE_ARCH x86_build = true /\
  Libc.fopen (files x86_host_without_lnsz) CACHE_LNSZ_FILE = None /\
  returned_code run = Some (-1) /\
  diagnostics run = Some [err_cache_line_size; err_systemcpu] /\
  option_map odp_sys_cache_line_size (returned_record run) = Some 0.
Proof. vm_compute; repeat split. Qed.

(** C3, amended: on a sysfs build an absent coherency_line_size file makes
    the probe return 0 and the initialisation fail, on the cache line probe
    when the steps before it succeed; the fixed default (64, or the compiled
    constant on ThunderX) is what the probe returns on the other builds. *)
Theorem absent_lnsz_file_is_fatal
        (cfg : build_config)
        (cpuinfo_parser : Libc.FILE -> system_info_t -> system_info_t)
        (h : host) (g : odp_global_data_s) :
  (SYSFS_CACHE_ARCH cfg = true ->
   Libc.fopen (files h) CACHE_LNSZ_FILE = None ->
   systemcpu_cache_line_size cfg h = 0 /\
   init_fails cfg cpuinfo_parser h g /\
   (other_mandatory_probes_ok cfg h g ->
    exists g', init_returns cfg cpuinfo_parser h g (-1) g'
                            [err_cache_line_size; err_systemcpu])) /\
  (SYSFS_CACHE_ARCH cfg = false ->
   systemcpu_cache_line_size cfg h =
   if HAVE_THUNDERX cfg then ODP_CACHE_LINE_SIZE cfg else 64).
Proof.
  split.
  - intros Harch Hfile.
    assert (Hprobe : systemcpu_cache_line_size cfg h = 0)
      by (unfold systemcpu_cache_line_size; now rewrite Harch, Hfile).
    split; [exact Hprobe|].
    unfold init_fails, init_returns.
    destruct (init_cases cfg cpuinfo_parser h g)
      as [[Hnot (g' & errs & H & _)]|[_ (gs & Hgs & ->)]].
    + split; [eauto|]. intros [Hreach _]; contradiction.
    + destruct (init_from_systemcpu_cases cfg h gs)
        as [[Hn H]|[(_ & _ & H)|[(_ & Hr & _)|[(_ & Hr & _)|(_ & Hr & _)]]]];
        try contradiction.
      * split; [eauto|]. intros [_ Hg]; congruence.
      * split; eauto.
  - intros Harch. unfold systemcpu_cache_line_size. now rewrite Harch.
Qed.

Lemma absent_lnsz_file_is_fatal_witness :
  (SYSFS_CACHE_ARCH x86_build = true /\
   Libc.fopen (files x86_host_without_lnsz) CACHE_LNSZ_FILE = None /\
   systemcpu_cache_line_size x86_build x86_host_without_lnsz = 0 /\
   init_fails x86_build cpu0_parser x86_host_without_lnsz (boot 4)) /\
  (SYSFS_CACHE_ARCH thunderx_build = false /\
   systemcpu_cache_line_size thunderx_build
     (thunderx_host mounts_with_hugepages) = 128).
Proof.
  split.
  - destruct (proj1 (absent_lnsz_file_is_fatal
                       x86_build cpu0_parser x86_host_without_lnsz (boot 4)))
      as (Hp & Hf & _); [reflexivity|vm_compute; reflexivity|].
    split; [reflexivity|].
    split; [vm_compute; reflexivity|].
    split; [exact Hp|exact Hf].
  - split; [reflexivity|].
    apply (proj2 (absent_lnsz_file_is_fatal
                    thunderx_build cpu0_parser
                    (thunderx_host mounts_with_hugepages) (boot 4))).
    reflexivity.
Defined.

(** ** CPU tables *)

(** C4: for every id outside [0, MAX_CPU_NUMBER), negative ids included,
    [odp_cpu_model_str_id] returns NULL and [odp_cpu_hz_max_id] returns 0;
    both return without reading the tables, whatever their contents. *)
Theorem out_of_range_ids_rejected
        (cfg : build_config) (g : odp_global_data_s) (id : Z) :
  id < 0 \/ MAX_CPU_NUMBER cfg <= id ->
  odp_cpu_model_str_id cfg g id = Returns None /\
  odp_cpu_hz_max_id cfg g id = Returns 0.
Proof.
  intros Hid. unfold odp_cpu_model_str_id, odp_cpu_hz_max_id.
  assert (Hguard : (0 <=? id) && (id <? MAX_CPU_NUMBER cfg) = false).
  { apply andb_false_iff. destruct Hid; [left; lia|right; lia]. }
  rewrite Hguard; split; reflexivity.
Qed.

Lemma out_of_range_ids_rejected_witness :
  (-1 < 0 \/ MAX_CPU_NUMBER x86_build <= -1) /\
  odp_cpu_model_str_id x86_build (boot 4) (-1) = Returns None /\
  odp_cpu_hz_max_id x86_build (boot 4) (-1) = Returns 0.
Proof.
  split; [left; lia|].
  apply (out_of_range_ids_rejected x86_build (boot 4) (-1)). left; lia.
Defined.

(** ** CPU count *)

(** C5, at an input: a negative boot-time count passes the test for zero;
    the initialisation succeeds and [odp_cpu_count] returns -1. *)
Lemma negative_cpu_count_survives :
  let run := odp_system_info_init x86_build no_parser
               (x86_host ("64" ++ nl) meminfo_2M) (boot (-1)) in
  returned_code run = Some 0 /\
  diagnostics run = Some [] /\
  option_map odp_cpu_count (returned_record run) = Some (-1).
Proof. vm_compute; repeat split. Qed.

(** C5, amended: the initialisation fails whenever the boot-time CPU count
    is zero; after a successful initialisation [odp_cpu_count] returns the
    boot-time count, which is not zero, and is at least 1 when that count
    is not negative. *)
Theorem cpu_count_nonzero_after_init
        (cfg : build_config)
        (cpuinfo_parser : Libc.FILE -> system_info_t -> system_info_t)
        (h : host) (g : odp_global_data_s) :
  (num_cpus_installed g = 0 -> init_fails cfg cpuinfo_parser h g) /\
  (forall g' errs,
     init_returns cfg cpuinfo_parser h g 0 g' errs ->
     odp_cpu_count g' = num_cpus_installed g /\
     odp_cpu_count g' <> 0 /\
     (0 <= num_cpus_installed g -> 1 <= odp_cpu_count g')).
Proof.
  unfold init_fails, init_returns. split.
  - intros Hz.
    destruct (init_cases cfg cpuinfo_parser h g)
      as [[_ (g' & errs & H & _)]|[_ (gs & Hgs & ->)]]; [eauto|].
    rewrite <- Hgs in Hz.
    destruct (init_from_systemcpu_cases cfg h gs)
      as [[_ H]|[(Hn & _)|[(Hn & _)|[(Hn & _)|(Hn & _)]]]];
      eauto; contradiction.
  - intros g' errs Hrun.
    destruct (init_cases cfg cpuinfo_parser h g)
      as [[_ (g1 & e1 & H & _)]|[_ (gs & Hgs & H)]]; rewrite H in Hrun;
      [discriminate Hrun|clear H].
    destruct (init_from_systemcpu_cases cfg h gs)
      as [[_ H]|[(_ & _ & H)|[(_ & _ & _ & H)|[(_ & _ & _ & _ & H)
         |(Hn & _ & _ & _ & sz & e & _ & H)]]]];
      rewrite H in Hrun; try discriminate Hrun.
    injection Hrun as <- <-. unfold odp_cpu_count; simpl.
    rewrite <- Hgs. repeat split; [exact Hn|lia].
Qed.

Lemma cpu_count_nonzero_after_init_witness :
  (num_cpus_installed (boot 0) = 0 /\
   init_fails x86_build cpu0_parser (x86_host ("64" ++ nl) meminfo_2M) (boot 0)) /\
  (0 <= num_cpus_installed (boot 4) /\
   exists g' errs,
     init_returns x86_build cpu0_parser (x86_host ("64" ++ nl) meminfo_2M)
                  (boot 4) 0 g' errs /\
     1 <= odp_cpu_count g').
Proof.
  split.
  - split; [reflexivity|].
    apply (proj1 (cpu_count_nonzero_after_init
                    x86_build cpu0_parser
                    (x86_host ("64" ++ nl) meminfo_2M) (boot 0))).
    reflexivity.
  - split; [simpl; lia|].
    do 2 eexists.
    split; [vm_compute; reflexivity|].
    refine (proj2 (proj2 (proj2 (cpu_count_nonzero_after_init
                                   x86_build cpu0_parser
                                   (x86_host ("64" ++ nl) meminfo_2M) (boot 4))
                                _ _ _)) _);
      [vm_compute; reflexivity|simpl; lia].
Defined.

(** ** Default huge page size *)

Lemma scan_without_hugepagesize (lines : list string) (g : odp_global_data_s) :
  Forall (fun str => Libc.sscanf_hugepagesize (Libc.c_str str) = None) lines ->
  default_huge_page_size_scan lines g = Returns (0, g, [err_hp_size]).
Proof.
  induction 1 as [|str lines Hs _ IH]; simpl; [reflexivity|].
  now rewrite Hs.
Qed.

(** When /proc/meminfo opens and no line of it matches, the huge page size
    is left at 0 after one diagnostic and the initialisation succeeds. *)
Lemma no_hugepagesize_line_not_fatal
      (cfg : build_config)
      (cpuinfo_parser : Libc.FILE -> system_info_t -> system_info_t)
      (h : host) (g : odp_global_data_s) (file : Libc.FILE) :
  Libc.fopen (files h) "/proc/meminfo" = Some file ->
  Forall (fun str => Libc.sscanf_hugepagesize (Libc.c_str str) = None)
         (Libc.fgets_all 1024 file) ->
  systemcpu_cache_line_size cfg h = ODP_CACHE_LINE_SIZE cfg ->
  ODP_CACHE_LINE_SIZE cfg <> 0 ->
  other_mandatory_probes_ok cfg h g ->
  exists g',
    init_returns cfg cpuinfo_parser h g 0 g' [err_hp_size] /\
    odp_sys_huge_page_size g' = 0.
Proof.
  intros Hfile Hlines Heq Hnz [Hreach Hn]. unfold init_returns.
  destruct (init_cases cfg cpuinfo_parser h g)
    as [[Hnot _]|[_ (gs & Hgs & ->)]]; [contradiction|].
  rewrite <- Hgs in Hn.
  unfold init_from_systemcpu. rewrite systemcpu_run; cbv zeta.
  destruct (Z.eqb_spec (num_cpus_installed gs) 0); [contradiction|].
  rewrite Heq.
  destruct (Z.eqb_spec (ODP_CACHE_LINE_SIZE cfg) 0); [contradiction|].
  rewrite Z.eqb_refl; simpl negb; cbv iota.
  unfold default_huge_page_size. rewrite Hfile.
  rewrite scan_without_hugepagesize by exact Hlines.
  simpl. eexists; split; reflexivity.
Qed.

(** The meminfo line of the specification gives 2 MiB. *)
Example hugepagesize_2048_kB :
  option_map odp_sys_huge_page_size
    (returned_record
       (odp_system_info_init x86_build no_parser
          (x86_host ("64" ++ nl) ("Hugepagesize:       2048 kB" ++ nl))
          (boot 4))) = Some 2097152.
Proof. vm_compute; reflexivity. Qed.

Example no_hugepagesize_line :
  let run := odp_system_info_init x86_build no_parser
               (x86_host ("64" ++ nl) meminfo_without_hugepagesize) (boot 4) in
  returned_code run = Some 0 /\
  option_map odp_sys_huge_page_size (returned_record run) = Some 0.
Proof. vm_compute; split; reflexivity. Qed.

(** C6, at the failing input: with the cache line size matching and every
    mandatory probe succeeding, a /proc/meminfo that cannot be opened makes
    [default_huge_page_size] give the NULL stream to [fgets]; the
    initialisation does not return. *)
Theorem unopened_meminfo_is_read :
  Libc.fopen (files x86_host_without_meminfo) "/proc/meminfo" = None /\
  systemcpu_cache_line_size x86_build x86_host_without_meminfo =
    ODP_CACHE_LINE_SIZE x86_build /\
  num_cpus_installed (boot 4) <> 0 /\
  Libc.fopen (files x86_host_without_meminfo) "/proc/cpuinfo" <> None /\
  odp_system_info_init x86_build no_parser x86_host_without_meminfo (boot 4)
    = Undefined.
Proof. vm_compute; repeat split; discriminate. Qed.

(** ** Huge page directory *)


(** C7: on a build that requires huge pages, a mount table without a line
    whose third field is hugetlbfs makes the initialisation fail; when the
    page size step before it passes, the failure is the one of the huge page
    directory. *)
Theorem missing_hugetlbfs_mount_is_fatal
        (cfg : build_config)
        (cpuinfo_parser : Libc.FILE -> system_info_t -> system_info_t)
        (h : host) (g : odp_global_data_s) (f : Libc.FILE) :
  HAVE_THUNDERX cfg = true ->
  Libc.fopen (files h) "/proc/mounts" = Some f ->
  Forall (fun line => fstype_of line <> Some hugefs)
         (Libc.fgets_all Libc.PATH_MAX f) ->
  exists g' errs,
    init_returns cfg cpuinfo_parser h g (-1) g' errs /\
    (0 <= sc_pagesize h -> In err_hugepage_dir errs) /\
    (0 <= sc_pagesize h ->
     Forall passed_over (Libc.fgets_all Libc.PATH_MAX f) ->
     errs = [err_hugepage_dir]).
Proof.
  intros Ht Hf Hlines. unfold init_returns.
  rewrite odp_system_info_init_run; cbv zeta. rewrite Ht.
  destruct (Z.ltb_spec (sc_pagesize h) 0) as [Hneg|Hpos].
  - do 2 eexists; split; [reflexivity|]. split; intros; lia.
  - unfold huge_page_dir at 1. rewrite Hf.
    match goal with |- context [huge_page_dir_scan _ ?x] =>
      destruct (scan_without_hugetlbfs
                  (Libc.fgets_all Libc.PATH_MAX f) x Hlines)
        as (errs & Hscan & Herrs) end.
    rewrite Hscan; simpl negb; cbv iota.
    do 2 eexists; split; [reflexivity|]. split.
    + intros _. apply in_or_app; right; simpl; auto.
    + intros _ Hall.
      match type of Hscan with huge_page_dir_scan _ ?x = _ =>
        pose proof (scan_passes_over
                      (Libc.fgets_all Libc.PATH_MAX f) [] x Hall) as Hp end.
      rewrite app_nil_r in Hp. rewrite Hp in Hscan. simpl in Hscan.
      unfold ret in Hscan. injection Hscan as <-. reflexivity.
Qed.

Lemma missing_hugetlbfs_mount_is_fatal_witness :
  HAVE_THUNDERX thunderx_build = true /\
  Libc.fopen (files (thunderx_host mounts_without_hugepages)) "/proc/mounts"
    = Some mounts_without_hugepages /\
  exists g' errs,
    init_returns thunderx_build cpu0_parser
                 (thunderx_host mounts_without_hugepages) (boot 4)
                 (-1) g' errs /\
    In err_hugepage_dir errs.
Proof.
  split; [reflexivity|]. split; [reflexivity|].
  destruct (missing_hugetlbfs_mount_is_fatal
              thunderx_build cpu0_parser
              (thunderx_host mounts_without_hugepages) (boot 4)
              mounts_without_hugepages)
    as (g' & errs & Hrun & Hin & _).
  - reflexivity.
  - reflexivity.
  - vm_compute. repeat constructor; discriminate.
  - exists g', errs. split; [exact Hrun|]. apply Hin. simpl; lia.
Defined.

(** C9, at an input: a mount table whose first line is the hugetlbfs mount
    and whose second line has two tokens; the initialisation succeeds
    without a diagnostic. *)
Lemma short_line_after_mount_not_read :
  let lines := Libc.fgets_all Libc.PATH_MAX mounts_short_line_last in
  let run := odp_system_info_init thunderx_build no_parser
               (thunderx_host mounts_short_line_last) (boot 4) in
  map (fun line => List.length (cols_of line)) lines = [3%nat; 2%nat] /\
  returned_code run = Some 0 /\
  diagnostics run = Some [] /\
  option_map odp_sys_huge_page_dir (returned_record run)
    = Some "/dev/hugepages".
Proof. vm_compute; repeat split. Qed.

(** C9, amended: a line with fewer than three tokens that the scan reaches,
    no hugetlbfs line standing before it, makes the initialisation fail on
    the parse diagnostic. *)
Theorem short_line_before_mount_is_fatal
        (cfg : build_config)
        (cpuinfo_parser : Libc.FILE -> system_info_t -> system_info_t)
        (h : host) (g : odp_global_data_s) (f : Libc.FILE)
        (pre post : list string) (line : string) :
  HAVE_THUNDERX cfg = true ->
  0 <= sc_pagesize h ->
  Libc.fopen (files h) "/proc/mounts" = Some f ->
  Libc.fgets_all Libc.PATH_MAX f = (pre ++ line :: post)%list ->
  Forall passed_over pre ->
  (List.length (cols_of line) < ncols)%nat ->
  exists g',
    init_returns cfg cpuinfo_parser h g (-1) g'
                 [err_parsing_mounts; err_hugepage_dir] /\
    odp_sys_huge_page_dir g' = "".
Proof.
  intros Ht Hpos Hf Hlines Hpre Hshort. unfold init_returns.
  rewrite odp_system_info_init_run; cbv zeta. rewrite Ht.
  destruct (Z.ltb_spec (sc_pagesize h) 0) as [Hneg|_]; [lia|].
  unfold huge_page_dir. rewrite Hf, Hlines.
  rewrite scan_passes_over by exact Hpre.
  rewrite scan_rejects by exact Hshort.
  simpl negb; cbv iota. eexists; split; reflexivity.
Qed.

Lemma short_line_before_mount_is_fatal_witness :
  HAVE_THUNDERX thunderx_build = true /\
  0 <= sc_pagesize (thunderx_host mounts_short_line_first) /\
  (List.length (cols_of ("tmpfs /run" ++ nl)) < ncols)%nat /\
  exists g',
    init_returns thunderx_build cpu0_parser
                 (thunderx_host mounts_short_line_first) (boot 4) (-1) g'
                 [err_parsing_mounts; err_hugepage_dir] /\
    odp_sys_huge_page_dir g' = "".
Proof.
  split; [reflexivity|]. split; [simpl; lia|].
  split; [vm_compute; lia|].
  apply (short_line_before_mount_is_fatal
           thunderx_build cpu0_parser
           (thunderx_host mounts_short_line_first) (boot 4)
           mounts_short_line_first
           [] [hugepages_line ++ nl] ("tmpfs /run" ++ nl)).
  - reflexivity.
  - simpl; lia.
  - reflexivity.
  - vm_compute; reflexivity.
  - constructor.
  - vm_compute; lia.
Defined.

(** ** Accessors *)

(** C10: in every state of the record the accessors without argument are
    the indexed ones at CPU 0. *)
Theorem accessors_default_to_cpu0
        (cfg : build_config) (g : odp_global_data_s) :
  odp_cpu_hz_max cfg g = odp_cpu_hz_max_id cfg g 0 /\
  odp_cpu_model_str cfg g = odp_cpu_model_str_id cfg g 0.
Proof. split; reflexivity. Qed.

(** In a record of [MAX_CPU_NUMBER] entries per table, as [memset] and the
    parser's contract leave it, an id in range is read inside the tables. *)
Lemma in_range_ids_read
      (cfg : build_config) (g : odp_global_data_s) (id : Z) :
  List.length (SI.cpu_hz_max (system_info g)) = Z.to_nat (MAX_CPU_NUMBER cfg) ->
  List.length (SI.model_str (system_info g)) = Z.to_nat (MAX_CPU_NUMBER cfg) ->
  0 <= id < MAX_CPU_NUMBER cfg ->
  (exists hz, odp_cpu_hz_max_id cfg g id = Returns hz) /\
  (exists s, odp_cpu_model_str_id cfg g id = Returns (Some s)).
Proof.
  intros Lhz Lstr Hid. unfold odp_cpu_hz_max_id, odp_cpu_model_str_id.
  assert (Hguard : (0 <=? id) && (id <? MAX_CPU_NUMBER cfg) = true).
  { apply andb_true_iff; split; [apply Z.leb_le|apply Z.ltb_lt]; lia. }
  rewrite Hguard. unfold array_read.
  destruct (Z.ltb_spec id 0) as [?|_]; [lia|].
  assert (Hn : (Z.to_nat id < Z.to_nat (MAX_CPU_NUMBER cfg))%nat) by lia.
  split.
  - destruct (nth_error (SI.cpu_hz_max (system_info g)) (Z.to_nat id)) eqn:E;
      [eauto|]. apply nth_error_None in E; lia.
  - destruct (nth_error (SI.model_str (system_info g)) (Z.to_nat id)) eqn:E;
      [eauto|]. apply nth_error_None in E; lia.
Qed.

(** ** The records an initialisation leaves *)

Section FinalRecords.

Variable cfg : build_config.
Variable cpuinfo_parser : Libc.FILE -> system_info_t -> system_info_t.
Variable h : host.

Lemma default_huge_page_size_scan_range (lines : list string)
      (g g' : odp_global_data_s) (sz : Z) (errs : list odp_err) :
  default_huge_page_size_scan lines g = Returns (sz, g', errs) ->
  0 <= sz < UINT64_MOD /\ sz mod 1024 = 0.
Proof.
  induction lines as [|str rest IH]; simpl.
  - intros H; injection H as <- _ _. unfold UINT64_MOD; split; [lia|reflexivity].
  - destruct (Libc.sscanf_hugepagesize (Libc.c_str str)) as [v|]; [|exact IH].
    intros H; injection H as <- _ _. split.
    + apply Z.mod_pos_bound; unfold UINT64_MOD; lia.
    + unfold UINT64_MOD.
      pose proof (Z.div_mod (v * 1024) (2 ^ 64)) as D.
      set (q := v * 1024 / 2 ^ 64) in D.
      set (m := (v * 1024) mod 2 ^ 64) in *.
      assert (Hm : m = (v - 2 ^ 54 * q) * 1024) by lia.
      rewrite Hm. apply Z.mod_mul; lia.
Qed.

Lemma default_huge_page_size_range
      (g g' : odp_global_data_s) (sz : Z) (errs : list odp_err) :
  default_huge_page_size h g = Returns (sz, g', errs) ->
  0 <= sz < UINT64_MOD /\ sz mod 1024 = 0.
Proof.
  unfold default_huge_page_size.
  destruct (Libc.fopen (files h) "/proc/meminfo"); [|discriminate].
  apply default_huge_page_size_scan_range.
Qed.

Lemma init_cpuinfo_final (g g' : odp_global_data_s) (r : Z)
      (errs : list odp_err) :
  before_cpuinfo cfg h (system_info g) ->
  init_cpuinfo cfg cpuinfo_parser h g = Returns (r, g', errs) ->
  exists si,
    g' = with_system_info g si /\
    final_record cfg cpuinfo_parser h (num_cpus_installed g) r si.
Proof.
  intros Hs0. rewrite init_cpuinfo_run.
  destruct (Libc.fopen (files h) "/proc/cpuinfo") as [file|] eqn:Hf.
  - rewrite systemcpu_run; cbv zeta.
    change (num_cpus_installed
              (with_system_info g (cpuinfo_parser file (system_info g))))
      with (num_cpus_installed g).
    destruct (Z.eqb_spec (num_cpus_installed g) 0) as [Hn|Hn].
    { intros H; injection H as <- <- <-. eexists; split; [reflexivity|].
      eapply final_cpu_count; eauto. }
    destruct (Z.eqb_spec (systemcpu_cache_line_size cfg h) 0) as [Hr|Hr].
    { intros H; injection H as <- <- <-. eexists; split; [reflexivity|].
      eapply final_cache_line_size; eauto. }
    destruct (Z.eqb_spec (systemcpu_cache_line_size cfg h)
                         (ODP_CACHE_LINE_SIZE cfg)) as [He|He]; simpl negb;
      cbv iota.
    2:{ intros H; injection H as <- <- <-. eexists; split; [reflexivity|].
        eapply final_mismatch; eauto. }
    match goal with |- context [default_huge_page_size h ?x] =>
      destruct (default_huge_page_size h x) as [[[sz g3] e]|] eqn:Hhp end;
      [|discriminate].
    pose proof (default_huge_page_size_range _ _ _ _ Hhp) as [Hsz Hkb].
    match type of Hhp with default_huge_page_size h ?x = _ =>
      destruct (default_huge_page_size_cases h x)
        as [[_ Hu]|[_ (sz' & e' & Hret & _)]] end;
      rewrite Hhp in *; [discriminate|].
    injection Hret as -> -> ->.
    simpl. intros H; injection H as <- <- <-. eexists; split; [reflexivity|].
    eapply final_success; eauto.
  - intros H; injection H as <- <- <-.
    exists (system_info g); split; [destruct g; reflexivity|].
    apply final_cpuinfo; assumption.
Qed.

(** Every return of [odp_system_info_init] leaves the boot data alone and
    the record in one of the shapes of [final_record]. *)
Lemma init_final_record (g g' : odp_global_data_s) (r : Z)
      (errs : list odp_err) :
  init_returns cfg cpuinfo_parser h g r g' errs ->
  exists si,
    g' = with_system_info g si /\
    final_record cfg cpuinfo_parser h (num_cpus_installed g) r si.
Proof.
  unfold init_returns. rewrite odp_system_info_init_run; cbv zeta.
  destruct (HAVE_THUNDERX cfg) eqn:Ht.
  - destruct (Z.ltb_spec (sc_pagesize h) 0) as [Hneg|Hpos].
    + intros H; injection H as <- <- <-. eexists; split; [reflexivity|].
      apply final_pagesize; assumption.
    + destruct (huge_page_dir_cases h) as [[dir Hd]|[e [_ Hd]]];
        rewrite Hd; simpl negb; cbv iota.
      * match goal with |- context [init_cpuinfo _ _ _ ?x] =>
          destruct (init_cpuinfo cfg cpuinfo_parser h x)
            as [[[r' g3] e']|] eqn:Hc end; [|discriminate].
        apply init_cpuinfo_final in Hc as (si & -> & Hfin).
        -- intros H; injection H as <- <- <-. exists si; split; [reflexivity|].
           exact Hfin.
        -- unfold before_cpuinfo; rewrite Ht. split; [exact Hpos|].
           exists dir; reflexivity.
      * intros H; injection H as <- <- <-. eexists; split; [reflexivity|].
        apply final_hugepage_dir; assumption.
  - intros Hc. apply init_cpuinfo_final in Hc as (si & -> & Hfin).
    + exists si; split; [reflexivity|exact Hfin].
    + unfold before_cpuinfo; rewrite Ht. reflexivity.
Qed.

End FinalRecords.

(** ** When the initialisation succeeds, fails, or goes wrong *)

Section Verdicts.

Variable cfg : build_config.
Variable cpuinfo_parser : Libc.FILE -> system_info_t -> system_info_t.
Variable h : host.

(** X1: [odp_system_info_init] returns 0 exactly when the steps before
    [systemcpu] go through, the boot-time CPU count is not zero, the cache
    line probe is not zero and equals [ODP_CACHE_LINE_SIZE], and
    /proc/meminfo opens. *)
Theorem init_succeeds_iff (g : odp_global_data_s) :
  (exists g' errs, init_returns cfg cpuinfo_parser h g 0 g' errs) <->
  (reaches_systemcpu cfg h /\
   num_cpus_installed g <> 0 /\
   systemcpu_cache_line_size cfg h <> 0 /\
   systemcpu_cache_line_size cfg h = ODP_CACHE_LINE_SIZE cfg /\
   Libc.fopen (files h) "/proc/meminfo" <> None).
Proof.
  unfold init_returns. split.
  - intros (g' & errs & Hrun).
    destruct (init_cases cfg cpuinfo_parser h g)
      as [[_ (g1 & e1 & H & _)]|[Hreach (gs & Hgs & H)]]; rewrite H in Hrun;
      [discriminate Hrun|clear H].
    destruct (init_from_systemcpu_cases cfg h gs)
      as [[_ H]|[(_ & _ & H)|[(_ & _ & _ & H)|[(_ & _ & _ & _ & H)
         |(Hn & Hr & He & Hm & _)]]]];
      try (rewrite H in Hrun; discriminate Hrun).
    rewrite Hgs in Hn. auto.
  - intros (Hreach & Hn & Hr & He & Hm).
    destruct (init_cases cfg cpuinfo_parser h g)
      as [[Hnot _]|[_ (gs & Hgs & ->)]]; [contradiction|].
    rewrite <- Hgs in Hn.
    destruct (init_from_systemcpu_cases cfg h gs)
      as [[H0 _]|[(_ & H0 & _)|[(_ & _ & H0 & _)|[(_ & _ & _ & H0 & _)
         |(_ & _ & _ & _ & sz & errs & _ & H)]]]];
      try contradiction.
    eauto.
Qed.

(** X2: when every test before [default_huge_page_size] passes and
    /proc/meminfo does not open, [odp_system_info_init] has no defined
    result: the NULL stream is given to [fgets]. *)
Theorem init_undefined_without_meminfo (g : odp_global_data_s) :
  reaches_systemcpu cfg h ->
  num_cpus_installed g <> 0 ->
  systemcpu_cache_line_size cfg h <> 0 ->
  systemcpu_cache_line_size cfg h = ODP_CACHE_LINE_SIZE cfg ->
  Libc.fopen (files h) "/proc/meminfo" = None ->
  odp_system_info_init cfg cpuinfo_parser h g = Undefined.
Proof.
  intros Hreach Hn Hr He Hm.
  destruct (init_cases cfg cpuinfo_parser h g)
    as [[Hnot _]|[_ (gs & Hgs & ->)]]; [contradiction|].
  rewrite <- Hgs in Hn.
  destruct (init_from_systemcpu_cases cfg h gs)
    as [[H0 _]|[(_ & H0 & _)|[(_ & _ & H0 & _)|[(_ & _ & _ & _ & H)
       |(_ & _ & _ & H0 & _)]]]];
    try contradiction.
  exact H.
Qed.

Lemma init_cpuinfo_diagnostics (g g' : odp_global_data_s) (r : Z)
      (errs : list odp_err) :
  init_cpuinfo cfg cpuinfo_parser h g = Returns (r, g', errs) ->
  (r = 0 /\ (errs = [] \/ errs = [err_hp_size])) \/
  (r = -1 /\ errs <> []).
Proof.
  rewrite init_cpuinfo_run.
  destruct (Libc.fopen (files h) "/proc/cpuinfo") as [file|].
  - match goal with |- context [systemcpu cfg h ?x] =>
      change (init_from_systemcpu cfg h x = Returns (r, g', errs) ->
              (r = 0 /\ (errs = [] \/ errs = [err_hp_size])) \/
              (r = -1 /\ errs <> []));
      destruct (init_from_systemcpu_cases cfg h x)
        as [[_ H]|[(_ & _ & H)|[(_ & _ & _ & H)|[(_ & _ & _ & _ & H)
           |(_ & _ & _ & _ & sz & e & He & H)]]]] end;
      rewrite H; try discriminate; intros E; injection E as <- <- <-.
    + right; split; [reflexivity|discriminate].
    + right; split; [reflexivity|discriminate].
    + right; split; [reflexivity|discriminate].
    + left; split; [reflexivity|]. destruct He as [->|[-> _]]; auto.
  - intros E; injection E as <- <- <-. right; split; [reflexivity|discriminate].
Qed.

(** X3: [odp_system_info_init] returns 0 or -1; every failure prints at
    least one diagnostic, and a success prints nothing but, at most, the
    message of the huge page size probe. *)
Theorem init_failure_is_reported (g g' : odp_global_data_s) (r : Z)
        (errs : list odp_err) :
  init_returns cfg cpuinfo_parser h g r g' errs ->
  (r = 0 /\ (errs = [] \/ errs = [err_hp_size])) \/
  (r = -1 /\ errs <> []).
Proof.
  unfold init_returns. rewrite odp_system_info_init_run; cbv zeta.
  destruct (HAVE_THUNDERX cfg).
  - destruct (sc_pagesize h <? 0).
    + intros E; injection E as <- <- <-.
      right; split; [reflexivity|discriminate].
    + destruct (huge_page_dir_cases h) as [[dir Hd]|[e [_ Hd]]];
        rewrite Hd; simpl negb; cbv iota.
      * match goal with |- context [init_cpuinfo _ _ _ ?x] =>
          destruct (init_cpuinfo cfg cpuinfo_parser h x)
            as [[[r' g3] e']|] eqn:Hc end; [|discriminate].
        apply init_cpuinfo_diagnostics in Hc.
        intros E; injection E as <- <- <-. exact Hc.
      * intros E; injection E as <- <- <-.
        right; split; [reflexivity|]. destruct e; discriminate.
  - apply init_cpuinfo_diagnostics.
Qed.

(** The outcome does not depend on what the record held before. *)
Lemma init_forgets_record (g1 g2 : odp_global_data_s) :
  num_cpus_installed g1 = num_cpus_installed g2 ->
  odp_system_info_init cfg cpuinfo_parser h g1 =
  odp_system_info_init cfg cpuinfo_parser h g2.
Proof.
  intros Hn.
  assert (E : with_system_info g1 (zeroed cfg)
              = with_system_info g2 (zeroed cfg))
    by (unfold with_system_info; now rewrite Hn).
  rewrite !odp_system_info_init_run; cbv zeta. now rewrite E.
Qed.

(** X4: [odp_system_info_init] clears the record first and leaves the boot
    data alone, so a second call on the record of a first one returns the
    same code, record and diagnostics. *)
Theorem init_rerun_repeats (g g' : odp_global_data_s) (r : Z)
        (errs : list odp_err) :
  init_returns cfg cpuinfo_parser h g r g' errs ->
  num_cpus_installed g' = num_cpus_installed g /\
  init_returns cfg cpuinfo_parser h g' r g' errs.
Proof.
  intros Hrun.
  destruct (init_final_record _ _ _ _ _ _ _ Hrun) as (si & Hg' & _).
  assert (Hn : num_cpus_installed g' = num_cpus_installed g)
    by (rewrite Hg'; reflexivity).
  split; [exact Hn|].
  unfold init_returns in *. rewrite <- Hrun. now apply init_forgets_record.
Qed.

End Verdicts.

Lemma init_failure_is_reported_witness :
  exists g',
    init_returns x86_build cpu0_parser
                 (x86_host ("64" ++ nl) meminfo_without_hugepagesize)
                 (boot 4) 0 g' [err_hp_size] /\
    ((0 = 0 /\ ([err_hp_size] = [] \/ [err_hp_size] = [err_hp_size])) \/
     (0 = -1 /\ [err_hp_size] <> [])).
Proof.
  eexists. split; [vm_compute; reflexivity|].
  eapply (init_failure_is_reported
            x86_build cpu0_parser
            (x86_host ("64" ++ nl) meminfo_without_hugepagesize) (boot 4)).
  vm_compute; reflexivity.
Defined.

Lemma init_rerun_repeats_witness :
  exists g',
    init_returns x86_build cpu0_parser (x86_host ("128" ++ nl) meminfo_2M)
                 (boot 4) (-1) g' [err_cache_line_mismatch; err_systemcpu] /\
    init_returns x86_build cpu0_parser (x86_host ("128" ++ nl) meminfo_2M)
                 g' (-1) g' [err_cache_line_mismatch; err_systemcpu].
Proof.
  eexists. split; [vm_compute; reflexivity|].
  refine (proj2 (init_rerun_repeats
                   x86_build cpu0_parser (x86_host ("128" ++ nl) meminfo_2M)
                   (boot 4) _ _ _ _)).
  vm_compute; reflexivity.
Defined.

(** ** The fields after an initialisation *)

Section FieldsAfterInit.

Variable cfg : build_config.
Variable cpuinfo_parser : Libc.FILE -> system_info_t -> system_info_t.
Variable h : host.

Lemma zeroed_table_lengths :
  List.length (SI.cpu_hz_max (zeroed cfg)) = Z.to_nat (MAX_CPU_NUMBER cfg) /\
  List.length (SI.model_str (zeroed cfg)) = Z.to_nat (MAX_CPU_NUMBER cfg).
Proof. simpl; rewrite !repeat_length; auto. Qed.

Lemma before_cpuinfo_fields (s0 : system_info_t) :
  before_cpuinfo cfg h s0 ->
  SI.page_size s0 =
    (if HAVE_THUNDERX cfg then sc_pagesize h else ODP_PAGE_SIZE cfg) /\
  (HAVE_THUNDERX cfg = true -> 0 <= sc_pagesize h) /\
  (HAVE_THUNDERX cfg = false -> SI.huge_page_dir s0 = "") /\
  SI.default_huge_page_size s0 = 0 /\
  List.length (SI.cpu_hz_max s0) = Z.to_nat (MAX_CPU_NUMBER cfg) /\
  List.length (SI.model_str s0) = Z.to_nat (MAX_CPU_NUMBER cfg).
Proof.
  unfold before_cpuinfo. pose proof zeroed_table_lengths as [L1 L2].
  destruct (HAVE_THUNDERX cfg).
  - intros [Hpos [dir ->]]; simpl in *. repeat split; auto; discriminate.
  - intros ->; simpl in *. repeat split; auto; discriminate.
Qed.

Lemma final_record_page_size (n r : Z) (si : system_info_t) :
  parser_writes_tables_only cpuinfo_parser ->
  final_record cfg cpuinfo_parser h n r si ->
  SI.page_size si =
    if HAVE_THUNDERX cfg
    then (if sc_pagesize h <? 0 then 0 else sc_pagesize h)
    else ODP_PAGE_SIZE cfg.
Proof.
  intros Hp F.
  assert (Hs0 : forall s0, before_cpuinfo cfg h s0 ->
            SI.page_size s0 =
            if HAVE_THUNDERX cfg
            then (if sc_pagesize h <? 0 then 0 else sc_pagesize h)
            else ODP_PAGE_SIZE cfg).
  { intros s0 B. apply before_cpuinfo_fields in B as (-> & Hpos & _).
    destruct (HAVE_THUNDERX cfg); [|reflexivity].
    specialize (Hpos eq_refl).
    destruct (Z.ltb_spec (sc_pagesize h) 0); [lia|reflexivity]. }
  destruct F as [Ht Hneg|Ht Hpos|s0 B _|s0 file B _ _|s0 file B _ _ _
                 |s0 file B _ _ _ _|s0 file sz B _ _ _ _ _ _]; simpl;
    try (destruct (Hp file s0) as (_ & -> & _)); auto.
  - rewrite Ht. destruct (Z.ltb_spec (sc_pagesize h) 0); [reflexivity|lia].
  - rewrite Ht. destruct (Z.ltb_spec (sc_pagesize h) 0); [lia|reflexivity].
Qed.

Lemma final_record_huge_page_size (n r : Z) (si : system_info_t) :
  parser_writes_tables_only cpuinfo_parser ->
  final_record cfg cpuinfo_parser h n r si ->
  (r = -1 -> SI.default_huge_page_size si = 0) /\
  0 <= SI.default_huge_page_size si < UINT64_MOD /\
  SI.default_huge_page_size si mod 1024 = 0.
Proof.
  intros Hp F.
  assert (Hz : 0 <= 0 < UINT64_MOD /\ 0 mod 1024 = 0)
    by (unfold UINT64_MOD; split; [lia|reflexivity]).
  destruct F as [Ht Hneg|Ht Hpos|s0 B _|s0 file B _ _|s0 file B _ _ _
                 |s0 file B _ _ _ _|s0 file sz B _ _ _ _ Hsz Hkb]; simpl;
    try (destruct (Hp file s0) as (-> & _));
    try (apply before_cpuinfo_fields in B as (_ & _ & _ & -> & _));
    first [split; [intros _; reflexivity|exact Hz]
          |split; [discriminate|auto]].
Qed.

Lemma final_record_table_lengths (n r : Z) (si : system_info_t) :
  parser_keeps_table_lengths cpuinfo_parser ->
  final_record cfg cpuinfo_parser h n r si ->
  List.length (SI.cpu_hz_max si) = Z.to_nat (MAX_CPU_NUMBER cfg) /\
  List.length (SI.model_str si) = Z.to_nat (MAX_CPU_NUMBER cfg).
Proof.
  intros Hp F. pose proof zeroed_table_lengths as Z0.
  destruct F as [Ht Hneg|Ht Hpos|s0 B _|s0 file B _ _|s0 file B _ _ _
                 |s0 file B _ _ _ _|s0 file sz B _ _ _ _ _ _]; simpl;
    try exact Z0;
    try (destruct (Hp file s0) as (-> & ->));
    apply before_cpuinfo_fields in B as (_ & _ & _ & _ & L1 & L2); auto.
Qed.

(** X5: with a parser that writes the tables only, any return of
    [odp_system_info_init] leaves the page size of the build: the constant
    [ODP_PAGE_SIZE] (and no huge page directory) without [HAVE_THUNDERX],
    the value of [sysconf] with it, and 0 after a failure on a negative
    [sysconf] value. *)
Theorem page_size_after_init (g g' : odp_global_data_s) (r : Z)
        (errs : list odp_err) :
  parser_writes_tables_only cpuinfo_parser ->
  init_returns cfg cpuinfo_parser h g r g' errs ->
  (HAVE_THUNDERX cfg = false ->
   odp_sys_page_size g' = ODP_PAGE_SIZE cfg /\
   odp_sys_huge_page_dir g' = "") /\
  (HAVE_THUNDERX cfg = true -> 0 <= sc_pagesize h ->
   odp_sys_page_size g' = sc_pagesize h) /\
  (HAVE_THUNDERX cfg = true -> sc_pagesize h < 0 ->
   r = -1 /\ errs = [err_sc_pagesize] /\ odp_sys_page_size g' = 0).
Proof.
  intros Hp Hrun.
  destruct (init_final_record _ _ _ _ _ _ _ Hrun) as (si & -> & F).
  pose proof (final_record_page_size _ _ _ Hp F) as Hps.
  unfold odp_sys_page_size, odp_sys_huge_page_dir; simpl.
  split; [|split].
  - intros Ht. rewrite Ht in Hps. split; [exact Hps|].
    destruct F as [Ht' _|Ht' _|s0 B _|s0 file B _ _|s0 file B _ _ _
                   |s0 file B _ _ _ _|s0 file sz B _ _ _ _ _ _]; simpl;
      try congruence;
      try (destruct (Hp file s0) as (_ & _ & _ & _ & ->));
      apply before_cpuinfo_fields in B as (_ & _ & Hd & _); auto.
  - intros Ht Hpos. rewrite Ht in Hps.
    destruct (Z.ltb_spec (sc_pagesize h) 0); [lia|exact Hps].
  - intros Ht Hneg. rewrite Ht in Hps.
    destruct (Z.ltb_spec (sc_pagesize h) 0); [|lia].
    unfold init_returns in Hrun.
    rewrite odp_system_info_init_run in Hrun; cbv zeta in Hrun.
    rewrite Ht in Hrun.
    destruct (Z.ltb_spec (sc_pagesize h) 0); [|lia].
    injection Hrun as <- _ <-. auto.
Qed.

(** X6: the huge page size is stored on the successful path only: after a
    failed initialisation [odp_sys_huge_page_size] returns 0, and after any
    return it is a multiple of 1024 below 2^64. *)
Theorem huge_page_size_after_init (g g' : odp_global_data_s) (r : Z)
        (errs : list odp_err) :
  parser_writes_tables_only cpuinfo_parser ->
  init_returns cfg cpuinfo_parser h g r g' errs ->
  (r = -1 -> odp_sys_huge_page_size g' = 0) /\
  0 <= odp_sys_huge_page_size g' < UINT64_MOD /\
  odp_sys_huge_page_size g' mod 1024 = 0.
Proof.
  intros Hp Hrun.
  destruct (init_final_record _ _ _ _ _ _ _ Hrun) as (si & -> & F).
  exact (final_record_huge_page_size _ _ _ Hp F).
Qed.

(** X7: with a parser that keeps the length of the tables, after any return
    of [odp_system_info_init] the indexed accessors return for every id:
    neither reads outside its table. *)
Theorem indexed_accessors_defined_after_init
        (g g' : odp_global_data_s) (r : Z) (errs : list odp_err) (id : Z) :
  parser_keeps_table_lengths cpuinfo_parser ->
  init_returns cfg cpuinfo_parser h g r g' errs ->
  (exists hz, odp_cpu_hz_max_id cfg g' id = Returns hz) /\
  (exists p, odp_cpu_model_str_id cfg g' id = Returns p).
Proof.
  intros Hp Hrun.
  destruct (init_final_record _ _ _ _ _ _ _ Hrun) as (si & -> & F).
  destruct (final_record_table_lengths _ _ _ Hp F) as [L1 L2].
  destruct (Z_lt_ge_dec id 0) as [Hlo|Hlo];
    [|destruct (Z_lt_ge_dec id (MAX_CPU_NUMBER cfg)) as [Hhi|Hhi]].
  - unfold odp_cpu_hz_max_id, odp_cpu_model_str_id.
    destruct (Z.leb_spec 0 id); [lia|]. simpl; eauto.
  - destruct (in_range_ids_read cfg (with_system_info g si) id)
      as [[hz Hhz] [s Hs]]; simpl; auto; [lia|]. eauto.
  - unfold odp_cpu_hz_max_id, odp_cpu_model_str_id.
    destruct (Z.ltb_spec id (MAX_CPU_NUMBER cfg)); [lia|].
    rewrite andb_false_r; eauto.
Qed.

End FieldsAfterInit.

Lemma cpu0_parser_writes_tables_only : parser_writes_tables_only cpu0_parser.
Proof. intros file s; repeat split. Qed.

Lemma cpu0_parser_keeps_table_lengths : parser_keeps_table_lengths cpu0_parser.
Proof.
  intros file s; simpl.
  destruct (SI.cpu_hz_max s), (SI.model_str s); simpl; auto.
Qed.

Lemma page_size_after_init_witness :
  exists g',
    init_returns thunderx_build cpu0_parser
                 (thunderx_host mounts_with_hugepages) (boot 4) 0 g' [] /\
    odp_sys_page_size g' = 4096.
Proof.
  eexists. split; [vm_compute; reflexivity|].
  refine (proj1 (proj2 (page_size_after_init
                          thunderx_build cpu0_parser
                          (thunderx_host mounts_with_hugepages)
                          (boot 4) _ 0 [] cpu0_parser_writes_tables_only _))
                _ _);
    [vm_compute; reflexivity|reflexivity|simpl; lia].
Defined.

Lemma huge_page_size_after_init_witness :
  exists g',
    init_returns x86_build cpu0_parser (x86_host ("128" ++ nl) meminfo_2M)
                 (boot 4) (-1) g' [err_cache_line_mismatch; err_systemcpu] /\
    odp_sys_huge_page_size g' = 0.
Proof.
  eexists. split; [vm_compute; reflexivity|].
  refine (proj1 (huge_page_size_after_init
                   x86_build cpu0_parser (x86_host ("128" ++ nl) meminfo_2M)
                   (boot 4) _ (-1) [err_cache_line_mismatch; err_systemcpu]
                   cpu0_parser_writes_tables_only _) _);
    [vm_compute; reflexivity|reflexivity].
Defined.

Lemma indexed_accessors_defined_after_init_witness :
  exists g',
    init_returns x86_build cpu0_parser (x86_host ("64" ++ nl) meminfo_2M)
                 (boot 4) 0 g' [] /\
    (exists hz, odp_cpu_hz_max_id x86_build g' 127 = Returns hz) /\
    (exists p, odp_cpu_model_str_id x86_build g' 127 = Returns p).
Proof.
  eexists. split; [vm_compute; reflexivity|].
  refine (indexed_accessors_defined_after_init
            x86_build cpu0_parser (x86_host ("64" ++ nl) meminfo_2M)
            (boot 4) _ 0 [] 127 cpu0_parser_keeps_table_lengths _).
  vm_compute; reflexivity.
Defined.

(** ** Tokens of a mount line *)

Module TokenFacts.
Import Libc.

Lemma append_empty_r (s : string) : (s ++ "")%string = s.
Proof. induction s as [|c s IH]; simpl; [reflexivity|now rewrite IH]. Qed.

Lemma without_app (c : ascii) (a b : string) :
  without c (a ++ b) = without c a && without c b.
Proof.
  induction a as [|x a IH]; simpl; [reflexivity|].
  rewrite IH. now rewrite andb_assoc.
Qed.

Lemma without_spaces_NUL (k : nat) : without NUL (spaces k) = true.
Proof. induction k as [|k IH]; simpl; auto. Qed.

Lemma without_c_str (c : ascii) (s : string) :
  without c s = true -> without c (c_str s) = true.
Proof.
  induction s as [|x s IH]; simpl; [auto|].
  intros H; apply andb_true_iff in H as [Hx Hs].
  destruct (Ascii.eqb x NUL); simpl; [reflexivity|].
  rewrite Hx; simpl; auto.
Qed.

Lemma c_str_app (a b : string) :
  without NUL a = true -> c_str (a ++ b) = (a ++ c_str b)%string.
Proof.
  induction a as [|x a IH]; simpl; [reflexivity|].
  intros H; apply andb_true_iff in H as [Hx Ha].
  destruct (Ascii.eqb x NUL); [discriminate|]. now rewrite IH.
Qed.

Lemma c_str_plain (a : string) : without NUL a = true -> c_str a = a.
Proof.
  intros H. rewrite <- (append_empty_r a) at 1. 
  rewrite c_str_app by exact H. simpl. apply append_empty_r.
Qed.

Lemma skip_delim_spaces (k : nat) (s : string) :
  skip_delim " " (spaces k ++ s) = skip_delim " " s.
Proof. induction k as [|k IH]; simpl; auto. Qed.

Lemma skip_delim_field (t s : string) :
  t <> "" -> without " " t = true ->
  skip_delim " " (t ++ s) = (t ++ s)%string.
Proof.
  destruct t as [|c t]; [congruence|]. simpl. intros _ H.
  apply andb_true_iff in H as [Hc _].
  destruct (Ascii.eqb c " "); [discriminate|reflexivity].
Qed.

Lemma span_token_field (t s : string) :
  without " " t = true ->
  span_token " " (t ++ String " " s) = (t, s).
Proof.
  induction t as [|c t IH]; simpl; [reflexivity|].
  intros H; apply andb_true_iff in H as [Hc Ht].
  destruct (Ascii.eqb c " "); [discriminate|]. now rewrite IH.
Qed.

Lemma span_token_end (t : string) :
  without " " t = true -> span_token " " t = (t, "").
Proof.
  induction t as [|c t IH]; simpl; [reflexivity|].
  intros H; apply andb_true_iff in H as [Hc Ht].
  destruct (Ascii.eqb c " "); [discriminate|]. now rewrite IH.
Qed.

(** [strtok] skips the spaces before a field and stops at the one after
    it. *)
Lemma strtok_field (k : nat) (t s : string) :
  t <> "" -> without " " t = true ->
  strtok " " (spaces k ++ t ++ String " " s) = Some (t, s).
Proof.
  intros Hne Hw. unfold strtok.
  rewrite skip_delim_spaces, skip_delim_field by assumption.
  destruct t as [|c t]; [congruence|].
  change ((String c t ++ String " " s)%string)
    with (String c (t ++ String " " s)).
  cbv iota.
  change (String c (t ++ String " " s))
    with ((String c t ++ String " " s)%string).
  now rewrite span_token_field.
Qed.

Lemma strtok_last (k : nat) (t : string) :
  t <> "" -> without " " t = true ->
  strtok " " (spaces k ++ t) = Some (t, "").
Proof.
  intros Hne Hw. unfold strtok.
  rewrite <- (append_empty_r t) at 1.
  rewrite skip_delim_spaces, skip_delim_field by assumption.
  rewrite append_empty_r.
  destruct t as [|c t]; [congruence|].
  now rewrite span_token_end.
Qed.

Lemma strtok_field_first (t s : string) :
  t <> "" -> without " " t = true ->
  strtok " " (t ++ String " " s) = Some (t, s).
Proof. exact (strtok_field 0 t s). Qed.

Lemma strtok_last_only (t : string) :
  t <> "" -> without " " t = true ->
  strtok " " t = Some (t, "").
Proof. exact (strtok_last 0 t). Qed.

Lemma skip_delim_head (d c : ascii) (s s' : string) :
  skip_delim d s = String c s' -> Ascii.eqb c d = false.
Proof.
  induction s as [|x s IH]; simpl; [discriminate|].
  destruct (Ascii.eqb x d) eqn:E; [exact IH|].
  intros H; injection H as <- _. exact E.
Qed.

Lemma span_token_without (d : ascii) (s : string) :
  without d (fst (span_token d s)) = true.
Proof.
  induction s as [|c s IH]; simpl; [reflexivity|].
  destruct (Ascii.eqb c d) eqn:E; simpl; [reflexivity|].
  destruct (span_token d s) as [t r]; simpl in *. now rewrite E.
Qed.

(** A token of [strtok] is not empty and holds no delimiter. *)
Lemma strtok_token (d : ascii) (s tok rest : string) :
  strtok d s = Some (tok, rest) -> tok <> "" /\ without d tok = true.
Proof.
  unfold strtok. destruct (skip_delim d s) as [|c s'] eqn:E; [discriminate|].
  apply skip_delim_head in E.
  intros H; injection H as H.
  change (span_token d (String c s') = (tok, rest)) in H.
  pose proof (span_token_without d (String c s')) as W. rewrite H in W.
  split; [|exact W].
  simpl in H. rewrite E in H. destruct (span_token d s') as [t r].
  injection H as <- _. discriminate.
Qed.

Lemma take_without (c : ascii) (n : nat) (s : string) :
  without c s = true -> without c (take n s) = true.
Proof.
  revert s; induction n as [|n IH]; intros s; [reflexivity|].
  destruct s as [|x s]; simpl; [auto|].
  intros H; apply andb_true_iff in H as [Hx Hs]. rewrite Hx; simpl; auto.
Qed.

Lemma take_length (n : nat) (s : string) :
  (String.length (take n s) <= n)%nat.
Proof.
  revert s; induction n as [|n IH]; intros s; simpl; [lia|].
  destruct s as [|x s]; simpl; [lia|]. specialize (IH s); lia.
Qed.

End TokenFacts.

(** ** Mount lines and what the scan makes of them *)

Section MountLines.

Import TokenFacts.

Lemma split_cols_tokens (n : nat) (saved : string) :
  Forall (fun tok => tok <> "" /\ without " " tok = true)
         (split_cols n saved).
Proof.
  revert saved; induction n as [|n IH]; intros saved; simpl; [constructor|].
  destruct (Libc.strtok " " saved) as [[tok rest]|] eqn:E; [|constructor].
  constructor; [eapply strtok_token; exact E|apply IH].
Qed.

(** A directory the scan stores is a token cut to the size of the field. *)
Lemma scan_stores_token (lines : list string) :
  (exists dir,
     dir <> "" /\ without " " dir = true /\
     (String.length dir < Libc.PATH_MAX)%nat /\
     forall g,
       huge_page_dir_scan lines g =
       Returns (0, with_system_info g (set_huge_page_dir dir (system_info g)),
                [])) \/
  (exists errs, (errs = [] \/ errs = [err_parsing_mounts]) /\
     forall g, huge_page_dir_scan lines g = Returns (-1, g, errs)).
Proof.
  induction lines as [|line lines IH]; simpl.
  - right; exists []; auto.
  - pose proof (split_cols_tokens ncols (Libc.c_str line)) as T.
    fold (cols_of line) in T.
    destruct (cols_of line) as [|a [|b [|c [|d l]]]];
      try (right; exists [err_parsing_mounts]; auto; fail).
    destruct (String.eqb c hugefs); [|exact IH].
    left. inversion T as [|? ? _ T1]; subst.
    inversion T1 as [|? ? [Hne Hw] _]; subst.
    exists (Libc.strncpy_terminated Libc.PATH_MAX b).
    unfold Libc.strncpy_terminated. repeat split.
    + destruct b as [|x b]; [congruence|]. discriminate.
    + apply take_without; exact Hw.
    + pose proof (take_length (Libc.PATH_MAX - 1) b). unfold Libc.PATH_MAX in *.
      lia.
Qed.

Lemma scan_skips (line dev mp fs : string) (post : list string)
      (g : odp_global_data_s) :
  cols_of line = [dev; mp; fs] -> fs <> hugefs ->
  huge_page_dir_scan (line :: post) g = huge_page_dir_scan post g.
Proof.
  intros Hcols Hne. cbn [huge_page_dir_scan]. rewrite Hcols.
  destruct (String.eqb_spec fs hugefs); [contradiction|reflexivity].
Qed.

(** X8: [huge_page_dir] always returns: with 0, no diagnostic and one store,
    of a directory that is not empty, holds no space and fits the field with
    its terminator; or with -1 and the record untouched. *)
Theorem huge_page_dir_outcome (h : host) (g : odp_global_data_s) :
  (exists dir,
     huge_page_dir h g =
     Returns (0, with_system_info g (set_huge_page_dir dir (system_info g)),
              []) /\
     dir <> "" /\ without " " dir = true /\
     (String.length dir < Libc.PATH_MAX)%nat) \/
  (exists errs,
     huge_page_dir h g = Returns (-1, g, errs) /\
     (errs = [] \/ errs = [err_parsing_mounts] \/ errs = [err_fopen_mounts])).
Proof.
  unfold huge_page_dir.
  destruct (Libc.fopen (files h) "/proc/mounts") as [f|].
  - destruct (scan_stores_token (Libc.fgets_all Libc.PATH_MAX f))
      as [(dir & Hne & Hw & Hlen & H)|(errs & He & H)].
    + left; exists dir; auto.
    + right; exists errs; split; [apply H|]. destruct He; auto.
  - right; exists [err_fopen_mounts]; split; [reflexivity|auto].
Qed.

Lemma mount_line_cols (a b c : nat) (dev mp fs rest : string) :
  mount_field dev -> mount_field mp -> mount_field fs ->
  cols_of (spaces a ++ dev ++ spaces (S b) ++ mp ++ spaces (S c) ++ fs
             ++ String " " rest)
  = [dev; mp; fs].
Proof.
  intros (Hd & Hds & Hdn) (Hm & Hms & Hmn) (Hf & Hfs & Hfn).
  unfold cols_of.
  rewrite c_str_app by apply without_spaces_NUL.
  rewrite c_str_app by exact Hdn.
  rewrite c_str_app by apply without_spaces_NUL.
  rewrite c_str_app by exact Hmn.
  rewrite c_str_app by apply without_spaces_NUL.
  rewrite c_str_app by exact Hfn.
  change (Libc.c_str (String " " rest)) with (String " " (Libc.c_str rest)).
  unfold ncols. cbn [split_cols spaces String.append].
  rewrite strtok_field by assumption.
  rewrite strtok_field by assumption.
  rewrite strtok_field by assumption.
  reflexivity.
Qed.

(** X9: [strtok] takes a run of spaces for one separator and skips the
    spaces at the head of a line: a line of three fields and more, however
    spaced, gives exactly these fields; when the third is hugetlbfs the scan
    stores the second, otherwise it goes on to the next line. *)
Theorem spaced_mount_line
        (a b c : nat) (dev mp fs rest : string) (post : list string)
        (g : odp_global_data_s) :
  mount_field dev -> mount_field mp -> mount_field fs ->
  (String.length mp < Libc.PATH_MAX)%nat ->
  let line := (spaces a ++ dev ++ spaces (S b) ++ mp ++ spaces (S c) ++ fs
                 ++ String " " rest)%string in
  cols_of line = [dev; mp; fs] /\
  (fs = hugefs ->
   huge_page_dir_scan (line :: post) g =
   Returns (0, with_system_info g (set_huge_page_dir mp (system_info g)), []))
  /\
  (fs <> hugefs ->
   huge_page_dir_scan (line :: post) g = huge_page_dir_scan post g).
Proof.
  intros Hd Hm Hf Hlen line.
  pose proof (mount_line_cols a b c dev mp fs rest Hd Hm Hf) as Hcols.
  fold line in Hcols. split; [exact Hcols|]. split.
  - intros ->. rewrite (scan_finds line dev mp) by exact Hcols.
    unfold Libc.strncpy_terminated.
    rewrite LibcFacts.take_all by lia. reflexivity.
  - intros Hne. exact (scan_skips line dev mp fs post g Hcols Hne).
Qed.

(** X10: the newline [fgets] keeps belongs to the last token: a line that
    ends right after "hugetlbfs" is passed over, while the same fields at
    the end of a file without a final newline are found. *)
Theorem hugetlbfs_at_end_of_line
        (dev mp : string) (post : list string) (g : odp_global_data_s) :
  mount_field dev -> mount_field mp ->
  (String.length mp < Libc.PATH_MAX)%nat ->
  huge_page_dir_scan ((dev ++ " " ++ mp ++ " " ++ hugefs ++ nl)%string :: post) g
    = huge_page_dir_scan post g /\
  huge_page_dir_scan ((dev ++ " " ++ mp ++ " " ++ hugefs)%string :: post) g
    = Returns (0, with_system_info g (set_huge_page_dir mp (system_info g)),
               []).
Proof.
  intros (Hd & Hds & Hdn) (Hm & Hms & Hmn) Hlen.
  assert (Hcols : forall last : string,
            last <> "" -> without " " last = true ->
            without Libc.NUL last = true ->
            cols_of (dev ++ " " ++ mp ++ " " ++ last) = [dev; mp; last]).
  { intros last Hl Hls Hln. unfold cols_of.
    rewrite c_str_app by exact Hdn.
    change (" " ++ mp ++ " " ++ last)%string
      with (String " " (mp ++ String " " last)).
    change (Libc.c_str (String " " (mp ++ String " " last)))
      with (String " " (Libc.c_str (mp ++ String " " last))).
    rewrite c_str_app by exact Hmn.
    change (Libc.c_str (String " " last)) with (String " " (Libc.c_str last)).
    rewrite c_str_plain by exact Hln.
    unfold ncols. cbn [split_cols].
    rewrite (strtok_field_first dev) by assumption.
    rewrite (strtok_field_first mp) by assumption.
    rewrite (strtok_last_only last) by assumption.
    reflexivity. }
  split.
  - apply (scan_skips _ dev mp (hugefs ++ nl)%string);
      [apply Hcols; reflexivity || discriminate|discriminate].
  - rewrite (scan_finds _ dev mp)
      by (apply Hcols; reflexivity || discriminate).
    unfold Libc.strncpy_terminated.
    rewrite LibcFacts.take_all by lia. reflexivity.
Qed.

(** X11: the space is the only separator: a line without a space, its
    fields set apart by tabs for instance, has one token at most and stops
    the scan with the parse diagnostic. *)
Theorem line_without_space_rejected
        (line : string) (post : list string) (g : odp_global_data_s) :
  without " " line = true ->
  huge_page_dir_scan (line :: post) g = Returns (-1, g, [err_parsing_mounts]).
Proof.
  intros Hw. apply scan_rejects. unfold cols_of, ncols.
  apply (without_c_str " ") in Hw.
  destruct (Libc.c_str line) as [|x s] eqn:E; [simpl; lia|].
  cbn [split_cols].
  rewrite (strtok_last_only (String x s)) by (discriminate || exact Hw).
  simpl; lia.
Qed.

End MountLines.

Lemma spaced_mount_line_witness :
  mount_field "none" /\ mount_field "/dev/hugepages" /\ mount_field hugefs /\
  huge_page_dir_scan
    [("  none   /dev/hugepages  hugetlbfs rw,relatime 0 0" ++ nl)%string]
    (boot 4)
  = Returns (0, with_system_info (boot 4)
                  (set_huge_page_dir "/dev/hugepages" (system_info (boot 4))),
             []).
Proof.
  assert (F : forall s, s <> "" -> without " " s = true ->
                        without Libc.NUL s = true -> mount_field s)
    by (intros s H1 H2 H3; repeat split; assumption).
  assert (F1 : mount_field "none")
    by (apply F; [discriminate|reflexivity|reflexivity]).
  assert (F2 : mount_field "/dev/hugepages")
    by (apply F; [discriminate|reflexivity|reflexivity]).
  assert (F3 : mount_field hugefs)
    by (apply F; [discriminate|reflexivity|reflexivity]).
  split; [exact F1|]. split; [exact F2|]. split; [exact F3|].
  refine (proj1 (proj2 (spaced_mount_line
                          2 2 1 "none" "/dev/hugepages" hugefs
                          ("rw,relatime 0 0" ++ nl) [] (boot 4)
                          F1 F2 F3 _)) eq_refl).
  vm_compute; lia.
Defined.

Lemma hugetlbfs_at_end_of_line_witness :
  mount_field "none" /\ mount_field "/mnt/huge" /\
  huge_page_dir_scan [("none /mnt/huge hugetlbfs" ++ nl)%string] (boot 4)
    = Returns (-1, boot 4, []) /\
  huge_page_dir_scan ["none /mnt/huge hugetlbfs"] (boot 4)
    = Returns (0, with_system_info (boot 4)
                    (set_huge_page_dir "/mnt/huge" (system_info (boot 4))),
               []).
Proof.
  assert (F1 : mount_field "none")
    by (split; [discriminate|split; reflexivity]).
  assert (F2 : mount_field "/mnt/huge")
    by (split; [discriminate|split; reflexivity]).
  split; [exact F1|]. split; [exact F2|].
  refine (hugetlbfs_at_end_of_line "none" "/mnt/huge" [] (boot 4) F1 F2 _).
  vm_compute; lia.
Defined.

Lemma line_without_space_rejected_witness :
  let tab := String "009" "" in
  let line := ("none" ++ tab ++ "/dev/hugepages" ++ tab ++ "hugetlbfs" ++ tab
                 ++ "rw" ++ nl)%string in
  without " " line = true /\
  huge_page_dir_scan [line] (boot 4)
    = Returns (-1, boot 4, [err_parsing_mounts]).
Proof.
  cbv zeta. split; [reflexivity|].
  apply line_without_space_rejected. reflexivity.
Defined.

(** ** Numbers in the probed files *)

Module DigitFacts.
Import Libc.

Ltac each_digit d :=
  do 10 (destruct d as [|d]; [try reflexivity|]); try (exfalso; lia).

Lemma digit_val_digit_char (d : nat) :
  (d < 10)%nat -> digit_val 10 (digit_char d) = Some (Z.of_nat d).
Proof. intros H. each_digit d. Qed.

Lemma isspace_digit_char (d : nat) :
  (d < 10)%nat -> isspace (digit_char d) = false.
Proof. intros H. each_digit d. Qed.

Lemma sign_of_digit_char (d : nat) :
  (d < 10)%nat -> sign_of (digit_char d) = None.
Proof. intros H. each_digit d. Qed.

Lemma digit_char_not (c : ascii) (d : nat) :
  digit_val 10 c = None -> (d < 10)%nat -> Ascii.eqb (digit_char d) c = false.
Proof.
  intros Hc Hd. destruct (Ascii.eqb_spec (digit_char d) c) as [<-|]; auto.
  rewrite digit_val_digit_char in Hc by exact Hd. discriminate.
Qed.

Lemma render_digits_without (c : ascii) (ds : list nat) :
  digit_val 10 c = None -> decimal ds -> without c (render_digits ds) = true.
Proof.
  intros Hc. induction 1 as [|d ds Hd _ IH]; cbn [render_digits without];
    [reflexivity|].
  rewrite digit_char_not by assumption. exact IH.
Qed.

Lemma render_digits_length (ds : list nat) :
  String.length (render_digits ds) = List.length ds.
Proof. induction ds as [|d ds IH]; simpl; auto. Qed.

Lemma append_length (a b : string) :
  String.length (a ++ b) = (String.length a + String.length b)%nat.
Proof. induction a as [|c a IH]; simpl; auto. Qed.

(** The tail after a number: the end of the string or a character that is
    not a decimal digit. *)
Lemma scan_digits_render (ds : list nat) (tl : string) :
  decimal ds ->
  (tl = "" \/ exists c r, tl = String c r /\ digit_val 10 c = None) ->
  forall (w : nat) (acc : Z),
    (List.length ds <= w)%nat ->
    scan_digits 10 w (render_digits ds ++ tl) acc =
    (List.length ds,
     fold_left (fun a d => a * 10 + Z.of_nat d) ds acc).
Proof.
  intros Hds Htl. induction Hds as [|d ds Hd _ IH]; intros w acc Hw.
  - simpl. destruct w as [|w]; [reflexivity|].
    destruct Htl as [->|(c & r & -> & Hc)]; simpl; [reflexivity|].
    now rewrite Hc.
  - destruct w as [|w]; [simpl in Hw; lia|].
    cbn [render_digits String.append scan_digits].
    rewrite digit_val_digit_char by exact Hd.
    rewrite IH by (simpl in Hw; lia). reflexivity.
Qed.

Lemma fold_digits_bound (ds : list nat) :
  decimal ds ->
  forall acc, 0 <= acc ->
    acc * 10 ^ Z.of_nat (List.length ds)
      <= fold_left (fun a d => a * 10 + Z.of_nat d) ds acc
      < (acc + 1) * 10 ^ Z.of_nat (List.length ds).
Proof.
  induction 1 as [|d ds Hd _ IH]; intros acc Hacc; simpl fold_left.
  - simpl. lia.
  - specialize (IH (acc * 10 + Z.of_nat d) ltac:(lia)).
    cbn [List.length]. rewrite Nat2Z.inj_succ, Z.pow_succ_r by lia.
    assert (0 < 10 ^ Z.of_nat (List.length ds)) by (apply Z.pow_pos_nonneg; lia).
    nia.
Qed.

Lemma digits_value_bound (ds : list nat) :
  decimal ds -> 0 <= digits_value ds < 10 ^ Z.of_nat (List.length ds).
Proof.
  intros H. pose proof (fold_digits_bound ds H 0 ltac:(lia)) as B.
  unfold digits_value. lia.
Qed.

Lemma match_literal_prefix (lit s : string) :
  match_literal lit (lit ++ s) = Some s.
Proof.
  induction lit as [|c lit IH]; simpl; [reflexivity|].
  now rewrite Ascii.eqb_refl.
Qed.

Lemma skip_space_spaces (k : nat) (s : string) :
  skip_space (spaces k ++ s) = skip_space s.
Proof. induction k as [|k IH]; simpl; auto. Qed.

(** [sscanf] with the format of [default_huge_page_size] on a line that has
    the label, any spaces and a decimal number of one to eight digits. *)
Lemma sscanf_hugepagesize_digits (k : nat) (ds : list nat) (tl : string) :
  decimal ds ->
  (1 <= List.length ds <= 8)%nat ->
  (tl = "" \/ exists c r, tl = String c r /\ digit_val 10 c = None) ->
  sscanf_hugepagesize ("Hugepagesize:" ++ spaces k ++ render_digits ds ++ tl)
  = Some (digits_value ds).
Proof.
  intros Hds Hlen Htl. unfold sscanf_hugepagesize.
  rewrite match_literal_prefix, skip_space_spaces.
  pose proof (scan_digits_render ds tl Hds Htl 8 0 ltac:(lia)) as Hscan.
  pose proof (digits_value_bound ds Hds) as Hb.
  destruct ds as [|d ds]; [simpl in Hlen; lia|].
  inversion Hds as [|? ? Hd Hds']; subst.
  cbn [render_digits String.append skip_space] in *.
  rewrite isspace_digit_char, sign_of_digit_char by exact Hd.
  rewrite Hscan. cbn [List.length]. f_equal.
  apply Z.mod_small. unfold ULONG_MOD. split; [apply Hb|].
  assert (10 ^ Z.of_nat (List.length (d :: ds)) <= 10 ^ 8)
    by (apply Z.pow_le_mono_r; lia).
  lia.
Qed.

(** [sscanf(str, "%i")] on a string whose first character is neither white
    space, nor a sign, nor the digit 0: the decimal case. *)
Lemma sscanf_i_decimal_case (c : ascii) (tail : string) :
  isspace c = false -> sign_of c = None -> c <> "0"%char ->
  sscanf_i (String c tail) =
  match scan_digits 10 (S (String.length tail)) (String c tail) 0 with
  | (O, _) => None
  | (_, v) => Some (int_of_long (clamp_long v))
  end.
Proof.
  intros Hs Hg Hz.
  destruct c as [[] [] [] [] [] [] [] []];
    try (vm_compute in Hs; discriminate Hs);
    try (vm_compute in Hg; discriminate Hg);
    try (exfalso; apply Hz; reflexivity);
    reflexivity.
Qed.

Lemma read_chunk_line (n : nat) (s rest : string) :
  without newline s = true ->
  (String.length s < n)%nat ->
  read_chunk n (s ++ String newline rest) = ((s ++ String newline "")%string, rest).
Proof.
  revert s; induction n as [|n IH]; intros s Hw Hlen; [lia|].
  destruct s as [|c s]; simpl.
  - reflexivity.
  - simpl in Hw. apply andb_true_iff in Hw as [Hc Hs].
    destruct (Ascii.eqb c newline); [discriminate|].
    rewrite IH by (simpl in Hlen; auto; lia). reflexivity.
Qed.

Lemma read_chunk_step (n : nat) (c : ascii) (f : FILE) :
  read_chunk (S n) (String c f) =
  if Ascii.eqb c newline then (String c "", f)
  else let (l, r) := read_chunk n f in (String c l, r).
Proof. reflexivity. Qed.

End DigitFacts.

Section ProbedNumbers.

Import TokenFacts DigitFacts.

Variable cfg : build_config.
Variable h : host.

Lemma scan_passes_nonmatching (pre rest : list string)
      (g : odp_global_data_s) :
  Forall (fun str => Libc.sscanf_hugepagesize (Libc.c_str str) = None) pre ->
  default_huge_page_size_scan (pre ++ rest) g =
  default_huge_page_size_scan rest g.
Proof.
  induction 1 as [|str pre Hs _ IH]; [reflexivity|].
  cbn [app default_huge_page_size_scan]. now rewrite Hs.
Qed.

(** X12: [default_huge_page_size] returns 1024 times the number of the first
    line of /proc/meminfo that matches: for a line "Hugepagesize:", any
    spaces, one to eight decimal digits and " kB", the digits' value in
    bytes, without a diagnostic and without a store. *)
Theorem hugepagesize_line_in_bytes
        (g : odp_global_data_s) (file : Libc.FILE) (pre post : list string)
        (k : nat) (ds : list nat) :
  Libc.fopen (files h) "/proc/meminfo" = Some file ->
  Libc.fgets_all 1024 file =
    (pre ++ ("Hugepagesize:" ++ spaces k ++ render_digits ds ++ " kB" ++ nl)%string
         :: post)%list ->
  Forall (fun str => Libc.sscanf_hugepagesize (Libc.c_str str) = None) pre ->
  decimal ds ->
  (1 <= List.length ds <= 8)%nat ->
  default_huge_page_size h g = Returns (digits_value ds * 1024, g, []).
Proof.
  intros Hfile Hlines Hpre Hds Hlen.
  unfold default_huge_page_size. rewrite Hfile, Hlines.
  rewrite scan_passes_nonmatching by exact Hpre.
  cbn [default_huge_page_size_scan].
  rewrite c_str_app by reflexivity.
  rewrite c_str_app by apply without_spaces_NUL.
  rewrite c_str_app by (apply render_digits_without; [reflexivity|exact Hds]).
  rewrite (c_str_plain (" kB" ++ nl)) by reflexivity.
  rewrite sscanf_hugepagesize_digits; [|exact Hds|exact Hlen|].
  - unfold ret. do 3 f_equal.
    apply Z.mod_small. unfold UINT64_MOD.
    pose proof (digits_value_bound ds Hds) as Hb.
    assert (10 ^ Z.of_nat (List.length ds) <= 10 ^ 8)
      by (apply Z.pow_le_mono_r; lia).
    lia.
  - right. exists " "%char, ("kB" ++ nl)%string. split; reflexivity.
Qed.

Lemma digit_char_zero (d : nat) :
  (d < 10)%nat -> digit_char d = "0"%char -> d = O.
Proof.
  intros Hd E. pose proof (digit_val_digit_char d Hd) as V.
  rewrite E in V. change (Libc.digit_val 10 "0"%char) with (Some 0) in V.
  injection V as V. lia.
Qed.

Lemma int_of_small_long (v : Z) :
  0 <= v < 10 ^ 9 -> Libc.int_of_long (Libc.clamp_long v) = v.
Proof.
  intros Hv. unfold Libc.int_of_long, Libc.clamp_long, Libc.LONG_MAX,
    Libc.LONG_MIN.
  rewrite Z.min_r by lia. rewrite Z.max_r by lia.
  rewrite Z.mod_small by lia. lia.
Qed.

(** X13: on a sysfs build, when the first line of the coherency_line_size
    file is a decimal number of nine digits at most that does not start
    with 0, [systemcpu_cache_line_size] returns that number; what follows
    the first line is not read. *)
Theorem lnsz_file_decimal (d : nat) (ds : list nat) (rest : string) :
  SYSFS_CACHE_ARCH cfg = true ->
  Libc.fopen (files h) CACHE_LNSZ_FILE
    = Some (render_digits (d :: ds) ++ nl ++ rest)%string ->
  decimal (d :: ds) ->
  (1 <= d)%nat ->
  (List.length (d :: ds) <= 9)%nat ->
  systemcpu_cache_line_size cfg h = digits_value (d :: ds).
Proof.
  intros Harch Hfile Hds Hd1 Hlen.
  inversion Hds as [|? ? Hd Hds']; subst.
  unfold systemcpu_cache_line_size. rewrite Harch, Hfile.
  change (render_digits (d :: ds) ++ nl ++ rest)%string
    with (String (digit_char d)
                 (render_digits ds ++ String Libc.newline rest)).
  unfold Libc.fgets.
  change (String (digit_char d)
                 (render_digits ds ++ String Libc.newline rest))
    with (render_digits (d :: ds) ++ String Libc.newline rest)%string.
  rewrite read_chunk_line;
    [|apply render_digits_without; [reflexivity|exact Hds]
     |rewrite render_digits_length; cbn [List.length] in *; lia].
  rewrite c_str_plain.
  2:{ rewrite without_app, render_digits_without by (reflexivity || exact Hds).
      reflexivity. }
  change (render_digits (d :: ds) ++ String Libc.newline "")%string
    with (String (digit_char d) (render_digits ds ++ String Libc.newline "")).
  rewrite sscanf_i_decimal_case;
    [|apply isspace_digit_char; exact Hd|apply sign_of_digit_char; exact Hd
     |intros E; apply digit_char_zero in E; [lia|exact Hd]].
  change (String (digit_char d) (render_digits ds ++ String Libc.newline ""))
    with (render_digits (d :: ds) ++ String Libc.newline "")%string.
  rewrite scan_digits_render;
    [|exact Hds|right; exists Libc.newline, ""%string; split; reflexivity
     |rewrite append_length, render_digits_length; cbn [List.length]; lia].
  cbn [List.length]. fold (digits_value (d :: ds)).
  apply int_of_small_long.
  pose proof (digits_value_bound (d :: ds) Hds) as Hb.
  assert (10 ^ Z.of_nat (List.length (d :: ds)) <= 10 ^ 9)
    by (apply Z.pow_le_mono_r; lia).
  lia.
Qed.

End ProbedNumbers.

Lemma hugepagesize_line_in_bytes_witness :
  Libc.fopen (files (x86_host ("64" ++ nl) meminfo_2M)) "/proc/meminfo"
    = Some meminfo_2M /\
  decimal [2; 0; 4; 8]%nat /\
  default_huge_page_size (x86_host ("64" ++ nl) meminfo_2M) (boot 4)
    = Returns (2048 * 1024, boot 4, []).
Proof.
  assert (D : decimal [2; 0; 4; 8]%nat) by (repeat constructor).
  split; [reflexivity|]. split; [exact D|].
  apply (hugepagesize_line_in_bytes
           (x86_host ("64" ++ nl) meminfo_2M) (boot 4) meminfo_2M
           [("MemTotal:       16315212 kB" ++ nl)%string] [] 7
           [2; 0; 4; 8]%nat).
  - reflexivity.
  - vm_compute; reflexivity.
  - constructor; [vm_compute; reflexivity|constructor].
  - exact D.
  - simpl; lia.
Defined.

Lemma lnsz_file_decimal_witness :
  SYSFS_CACHE_ARCH x86_build = true /\
  decimal [6; 4]%nat /\
  systemcpu_cache_line_size x86_build (x86_host ("64" ++ nl) meminfo_2M) = 64.
Proof.
  assert (D : decimal [6; 4]%nat) by (repeat constructor).
  split; [reflexivity|]. split; [exact D|].
  apply (lnsz_file_decimal
           x86_build (x86_host ("64" ++ nl) meminfo_2M) 6 [4%nat] "").
  - reflexivity.
  - vm_compute; reflexivity.
  - exact D.
  - lia.
  - simpl; lia.
Defined.

(** ** A coherency_line_size file without a number *)

Section UnreadableLnsz.

Import DigitFacts.

Variable cfg : build_config.
Variable cpuinfo_parser : Libc.FILE -> system_info_t -> system_info_t.
Variable h : host.

Lemma zero_probe_fails (g : odp_global_data_s) :
  systemcpu_cache_line_size cfg h = 0 ->
  init_fails cfg cpuinfo_parser h g.
Proof.
  intros Hz. unfold init_fails, init_returns.
  destruct (init_cases cfg cpuinfo_parser h g)
    as [[_ (g' & errs & H & _)]|[_ (gs & _ & ->)]]; [eauto|].
  destruct (init_from_systemcpu_cases cfg h gs)
    as [[_ H]|[(_ & _ & H)|[(_ & Hr & _)|[(_ & Hr & _)|(_ & Hr & _)]]]];
    eauto; contradiction.
Qed.

(** X14: on a sysfs build, a coherency_line_size file that is empty, or
    whose first character is neither white space, nor a sign, nor a decimal
    digit, makes the probe return 0, and the initialisation fail. *)
Theorem lnsz_file_without_number (g : odp_global_data_s) (text : string) :
  SYSFS_CACHE_ARCH cfg = true ->
  Libc.fopen (files h) CACHE_LNSZ_FILE = Some text ->
  (text = "" \/
   exists c rest, text = String c rest /\
                  Libc.isspace c = false /\ Libc.sign_of c = None /\
                  Libc.digit_val 10 c = None) ->
  systemcpu_cache_line_size cfg h = 0 /\
  init_fails cfg cpuinfo_parser h g.
Proof.
  intros Harch Hfile Htext.
  assert (Hz : systemcpu_cache_line_size cfg h = 0).
  { unfold systemcpu_cache_line_size. rewrite Harch, Hfile.
    destruct Htext as [->|(c & rest & -> & Hs & Hg & Hd)]; [reflexivity|].
    unfold Libc.fgets. change (128 - 1)%nat with (S 126).
    rewrite read_chunk_step.
    destruct (Ascii.eqb_spec c Libc.newline) as [->|_];
      [vm_compute in Hs; discriminate Hs|].
    destruct (Libc.read_chunk 126 rest) as [l r].
    cbn [Libc.c_str].
    destruct (Ascii.eqb c Libc.NUL); [reflexivity|].
    rewrite sscanf_i_decimal_case;
      [|exact Hs|exact Hg|intros ->; vm_compute in Hd; discriminate Hd].
    cbn [Libc.scan_digits]. rewrite Hd. reflexivity. }
  split; [exact Hz|apply zero_probe_fails; exact Hz].
Qed.

End UnreadableLnsz.

Lemma lnsz_file_without_number_witness :
  SYSFS_CACHE_ARCH x86_build = true /\
  Libc.fopen (files (x86_host "sixty-four" meminfo_2M)) CACHE_LNSZ_FILE
    = Some "sixty-four" /\
  systemcpu_cache_line_size x86_build (x86_host "sixty-four" meminfo_2M) = 0 /\
  init_fails x86_build cpu0_parser (x86_host "sixty-four" meminfo_2M) (boot 4).
Proof.
  split; [reflexivity|]. split; [reflexivity|].
  apply (lnsz_file_without_number
           x86_build cpu0_parser (x86_host "sixty-four" meminfo_2M) (boot 4)
           "sixty-four").
  - reflexivity.
  - reflexivity.
  - right. exists "s"%char, "ixty-four". repeat split.
Defined.

(** ** /proc/cpuinfo out of reach *)

Section CpuinfoUnopened.

Variable cfg : build_config.
Variable cpuinfo_parser : Libc.FILE -> system_info_t -> system_info_t.
Variable h : host.

Lemma untouched_tables (si : system_info_t) (g : odp_global_data_s) (id : Z) :
  SI.cpu_hz_max si = SI.cpu_hz_max (zeroed cfg) ->
  SI.model_str si = SI.model_str (zeroed cfg) ->
  0 <= id < MAX_CPU_NUMBER cfg ->
  odp_cpu_hz_max_id cfg (with_system_info g si) id = Returns 0 /\
  odp_cpu_model_str_id cfg (with_system_info g si) id = Returns (Some "").
Proof.
  intros Hhz Hstr Hid. unfold odp_cpu_hz_max_id, odp_cpu_model_str_id.
  assert (Hguard : (0 <=? id) && (id <? MAX_CPU_NUMBER cfg) = true).
  { apply andb_true_iff; split; [apply Z.leb_le|apply Z.ltb_lt]; lia. }
  rewrite Hguard. unfold array_read.
  destruct (Z.ltb_spec id 0) as [?|_]; [lia|].
  cbn [system_info with_system_info]. rewrite Hhz, Hstr. simpl.
  rewrite !nth_error_repeat by lia. auto.
Qed.

(** X16: when /proc/cpuinfo does not open, every return of
    [odp_system_info_init] is a failure that has run neither the parser nor
    [systemcpu]: the CPU count, the cache line size and the huge page size
    read 0, and every entry of the per-CPU tables reads 0 and the empty
    string. *)
Theorem cpuinfo_unopened
        (g g' : odp_global_data_s) (r : Z) (errs : list odp_err) (id : Z) :
  Libc.fopen (files h) "/proc/cpuinfo" = None ->
  init_returns cfg cpuinfo_parser h g r g' errs ->
  r = -1 /\
  odp_cpu_count g' = 0 /\
  odp_sys_cache_line_size g' = 0 /\
  odp_sys_huge_page_size g' = 0 /\
  (0 <= id < MAX_CPU_NUMBER cfg ->
   odp_cpu_hz_max_id cfg g' id = Returns 0 /\
   odp_cpu_model_str_id cfg g' id = Returns (Some "")).
Proof.
  intros Hfile Hrun.
  destruct (init_final_record _ _ _ _ _ _ _ Hrun) as (si & -> & F).
  assert (Hsi : r = -1 /\ SI.cpu_count si = 0 /\ SI.cache_line_size si = 0 /\
                SI.default_huge_page_size si = 0 /\
                SI.cpu_hz_max si = SI.cpu_hz_max (zeroed cfg) /\
                SI.model_str si = SI.model_str (zeroed cfg)).
  { destruct F as [Ht Hneg|Ht Hpos|s0 B _|s0 file B Hf _|s0 file B Hf _ _
                   |s0 file B Hf _ _ _|s0 file sz B Hf _ _ _ _ _];
      try congruence; try (repeat split; reflexivity).
    unfold before_cpuinfo in B. destruct (HAVE_THUNDERX cfg).
    - destruct B as [_ [dir ->]]. repeat split; reflexivity.
    - subst s0. repeat split; reflexivity. }
  destruct Hsi as (Hr & Hc & Hl & Hp & Hhz & Hstr).
  unfold odp_cpu_count, odp_sys_cache_line_size, odp_sys_huge_page_size.
  cbn [system_info with_system_info].
  repeat (split; [assumption|]).
  intros Hid. apply untouched_tables; assumption.
Qed.

End CpuinfoUnopened.

Lemma cpuinfo_unopened_witness :
  let host0 := {| files := [ (CACHE_LNSZ_FILE, ("64" ++ nl)%string) ];
                  sc_pagesize := 4096 |} in
  Libc.fopen (files host0) "/proc/cpuinfo" = None /\
  exists g',
    init_returns x86_build cpu0_parser host0 (boot 4) (-1) g'
                 [err_open_cpuinfo] /\
    odp_cpu_count g' = 0 /\
    odp_cpu_hz_max_id x86_build g' 0 = Returns 0.
Proof.
  cbv zeta. split; [reflexivity|].
  eexists. split; [vm_compute; reflexivity|].
  match goal with |- odp_cpu_count ?g' = _ /\ _ =>
    destruct (cpuinfo_unopened
                x86_build cpu0_parser
                {| files := [ (CACHE_LNSZ_FILE, ("64" ++ nl)%string) ];
                   sc_pagesize := 4096 |}
                (boot 4) g' (-1) [err_open_cpuinfo] 0)
      as (_ & Hc & _ & _ & Hid) end;
    [reflexivity|vm_compute; reflexivity|].
  split; [exact Hc|]. apply Hid. simpl; lia.
Defined.

(** ** Numbers wider than the conversion *)

Section WideNumbers.

Import TokenFacts DigitFacts.

Lemma scan_digits_width (w : nat) :
  forall (ds : list nat) (tl : string) (acc : Z),
    decimal ds ->
    (w <= List.length ds)%nat ->
    Libc.scan_digits 10 w (render_digits ds ++ tl) acc =
    (w, fold_left (fun a d => a * 10 + Z.of_nat d) (firstn w ds) acc).
Proof.
  induction w as [|w IH]; intros ds tl acc Hds Hlen; [reflexivity|].
  destruct ds as [|d ds]; [simpl in Hlen; lia|].
  inversion Hds as [|? ? Hd Hds']; subst.
  cbn [render_digits String.append Libc.scan_digits firstn fold_left].
  rewrite digit_val_digit_char by exact Hd.
  rewrite IH by (simpl in Hlen; auto; lia). reflexivity.
Qed.

Lemma decimal_firstn (n : nat) (ds : list nat) :
  decimal ds -> decimal (firstn n ds).
Proof.
  intros H; revert n. induction H as [|d ds Hd _ IH]; intros n.
  - rewrite firstn_nil; constructor.
  - destruct n; [constructor|]. cbn [firstn]. constructor; [exact Hd|apply IH].
Qed.

(** X17: the conversion [%8lu] reads eight characters at most: of a number
    of more than eight digits in the Hugepagesize line, only the first
    eight count, and [default_huge_page_size] returns their value times
    1024. *)
Theorem hugepagesize_cut_at_eight_digits
        (k : nat) (ds : list nat) (tl : string) (post : list string)
        (g : odp_global_data_s) :
  decimal ds ->
  (8 < List.length ds)%nat ->
  default_huge_page_size_scan
    (("Hugepagesize:" ++ spaces k ++ render_digits ds ++ tl)%string :: post) g
  = Returns (digits_value (firstn 8 ds) * 1024, g, []).
Proof.
  intros Hds Hlen. cbn [default_huge_page_size_scan].
  rewrite c_str_app by reflexivity.
  rewrite c_str_app by apply without_spaces_NUL.
  rewrite c_str_app by (apply render_digits_without; [reflexivity|exact Hds]).
  unfold Libc.sscanf_hugepagesize.
  rewrite match_literal_prefix, skip_space_spaces.
  pose proof (scan_digits_width 8 ds (Libc.c_str tl) 0 Hds ltac:(lia)) as Hscan.
  assert (Hfirst : decimal (firstn 8 ds)) by (apply decimal_firstn; exact Hds).
  pose proof (digits_value_bound _ Hfirst) as Hb.
  rewrite length_firstn in Hb.
  destruct ds as [|d ds]; [simpl in Hlen; lia|].
  inversion Hds as [|? ? Hd Hds']; subst.
  cbn [render_digits String.append Libc.skip_space] in *.
  rewrite isspace_digit_char, sign_of_digit_char by exact Hd.
  rewrite Hscan. fold (digits_value (firstn 8 (d :: ds))).
  assert (Hsmall : 0 <= digits_value (firstn 8 (d :: ds)) < 10 ^ 8).
  { replace (Z.of_nat (Nat.min 8 (List.length (d :: ds)))) with 8 in Hb
      by lia. exact Hb. }
  unfold ret, Libc.ULONG_MOD, UINT64_MOD.
  rewrite (Z.mod_small (digits_value (firstn 8 (d :: ds)))) by lia.
  rewrite Z.mod_small by lia. reflexivity.
Qed.

End WideNumbers.

Lemma hugepagesize_cut_at_eight_digits_witness :
  decimal [1; 3; 4; 2; 1; 7; 7; 2; 8]%nat /\
  default_huge_page_size_scan
    [("Hugepagesize:   134217728 kB" ++ nl)%string] (boot 4)
  = Returns (13421772 * 1024, boot 4, []).
Proof.
  assert (D : decimal [1; 3; 4; 2; 1; 7; 7; 2; 8]%nat) by (repeat constructor).
  split; [exact D|].
  apply (hugepagesize_cut_at_eight_digits
           3 [1; 3; 4; 2; 1; 7; 7; 2; 8]%nat (" kB" ++ nl) [] (boot 4) D).
  simpl; lia.
Defined.

Lemma init_undefined_without_meminfo_witness :
  reaches_systemcpu x86_build x86_host_without_meminfo /\
  Libc.fopen (files x86_host_without_meminfo) "/proc/meminfo" = None /\
  odp_system_info_init x86_build cpu0_parser x86_host_without_meminfo (boot 4)
    = Undefined.
Proof.
  assert (R : reaches_systemcpu x86_build x86_host_without_meminfo)
    by (split; [intros H; discriminate H|vm_compute; discriminate]).
  split; [exact R|]. split; [reflexivity|].
  apply (init_undefined_without_meminfo
           x86_build cpu0_parser x86_host_without_meminfo (boot 4) R).
  - simpl; lia.
  - vm_compute; discriminate.
  - vm_compute; reflexivity.
  - reflexivity.
Defined.

(** ** Tables of entries and the lines [fgets] makes of them *)

Module TableFacts.
Import Libc TokenFacts DigitFacts.








End TableFacts.

(** ** The first hugetlbfs entry of a mount table *)

Section MountTables.

Import TokenFacts TableFacts.







End MountTables.

